(** * dns_update.py: a dynamic DNS updater for one Cloudflare A record

    A shallow embedding of [src/dns_update.py] and the verification of its
    reconciliation cycle.  The Python functions are written as computations
    in a small state / exception / trace monad; the HTTP transport
    ([requests.get], [requests.put]) and the configuration file are the only
    collaborators and are taken as parameters, so every theorem holds for
    every behaviour of the network and of the file system. *)

From Stdlib Require Import ZArith List String Ascii Bool Lia.
From Stdlib Require Import PrimFloat.
Import ListNotations.
Local Open Scope string_scope.
Local Open Scope Z_scope.
Local Open Scope list_scope.
Local Set Warnings "-register-all".

(** ** Python values

    Everything the program handles is either a [str] or a value decoded by
    [json.load] / [response.json()].  [JNull] is Python's [None]. *)

Inductive json : Type :=
| JNull
| JBool (b : bool)
| JInt (z : Z)
| JFloat (f : float)
| JStr (s : string)
| JArr (items : list json)
| JObj (fields : list (string * json)).

(** Python's truth value of a decoded value, as used by [if x] and [not x]. *)
Definition truthy (v : json) : bool :=
  match v with
  | JNull => false
  | JBool b => b
  | JInt z => negb (z =? 0)
  | JFloat f => negb (PrimFloat.eqb f PrimFloat.zero)
  | JStr s => negb (String.eqb s EmptyString)
  | JArr items => match items with [] => false | _ :: _ => true end
  | JObj fields => match fields with [] => false | _ :: _ => true end
  end.

(** [v == s] for a [str] [s]: only an equal [str] compares equal. *)
Definition py_eq_str (v : json) (s : string) : bool :=
  match v with
  | JStr s' => String.eqb s' s
  | _ => false
  end.

(** Lookup in a decoded [dict]: the first binding of the key.  ([json.load]
    builds dicts with unique keys.) *)
Fixpoint assoc (k : string) (fields : list (string * json)) : option json :=
  match fields with
  | [] => None
  | (k', v) :: rest => if String.eqb k' k then Some v else assoc k rest
  end.

(** ** Exceptions and f-strings

    An f-string is kept as its pieces: literal text and interpolated
    values.  [SystemExit] is what [sys.exit] raises; it is a
    [BaseException] but not an [Exception]. *)

Inductive frag : Type :=
| Lit (s : string)
| Val (v : json)
| Joined (sep : string) (items : list string)
| Dumps (v : json) (indent : Z)
| ExnStr (e : exn)
with exn : Type :=
| RequestException      (* requests.RequestException: transport failure, HTTPError *)
| InvalidResponseJSON   (* raised by response.json() on a body that is not JSON *)
| JSONDecodeError       (* json.JSONDecodeError raised by json.load *)
| Exception (msg : list frag)
| AttributeError
| KeyError
| IndexError
| TypeError
| OSError
| UnicodeDecodeError    (* raised by json.load on a file that is not UTF-8 text *)
| SystemExit (code : Z).

Definition fstring : Type := list frag.

Inductive outcome (A : Type) : Type :=
| Ok (a : A)
| Raise (e : exn).
Arguments Ok {A} a.
Arguments Raise {A} e.

(** [data.get(k)] *)
Definition py_get (data : json) (k : string) : outcome json :=
  match data with
  | JObj fields => Ok (match assoc k fields with Some v => v | None => JNull end)
  | _ => Raise AttributeError
  end.

(** [data[k]] for a [str] key [k] *)
Definition py_getitem (data : json) (k : string) : outcome json :=
  match data with
  | JObj fields => match assoc k fields with Some v => Ok v | None => Raise KeyError end
  | _ => Raise TypeError
  end.

(** [data[0]] *)
Definition py_getitem0 (data : json) : outcome json :=
  match data with
  | JArr items => match items with x :: _ => Ok x | [] => Raise IndexError end
  | JStr s =>
      match s with
      | String c _ => Ok (JStr (String c EmptyString))
      | EmptyString => Raise IndexError
      end
  | JObj _ => Raise KeyError
  | _ => Raise TypeError
  end.

(** [k in data] for a [str] [k] *)
Definition is_substring (k s : string) : bool :=
  match String.index 0 k s with Some _ => true | None => false end.

Definition py_contains (k : string) (data : json) : outcome bool :=
  match data with
  | JObj fields => Ok (match assoc k fields with Some _ => true | None => false end)
  | JArr items => Ok (existsb (fun v => py_eq_str v k) items)
  | JStr s => Ok (is_substring k s)
  | _ => Raise TypeError
  end.

(** [str.strip] is a builtin of Python, which removes every Unicode white
    space; the program below takes it as a parameter.  [strip] is what it
    does on text of ASCII characters, and is what the example worlds, whose
    replies are ASCII text, put in its place. *)
Definition is_space (c : ascii) : bool :=
  let n := Z.of_nat (nat_of_ascii c) in
  ((9 <=? n) && (n <=? 13)) || ((28 <=? n) && (n <=? 32)).

Fixpoint lstrip (s : string) : string :=
  match s with
  | String c rest => if is_space c then lstrip rest else s
  | EmptyString => EmptyString
  end.

Fixpoint rstrip (s : string) : string :=
  match s with
  | String c rest =>
      match rstrip rest with
      | EmptyString => if is_space c then EmptyString else String c EmptyString
      | rest' => String c rest'
      end
  | EmptyString => EmptyString
  end.

Definition strip (s : string) : string := rstrip (lstrip s).

(** ** Collaborators, events and the monad *)

Inductive http_method : Type := GET | PUT.

Record request : Type := {
  method : http_method;
  url : fstring;
  headers : list (string * json);
  payload : option json;      (* the [json=] argument *)
  timeout : Z
}.

Record response : Type := {
  status_ok : bool;           (* [raise_for_status] passes *)
  text : string;              (* [response.text] *)
  body : option json          (* [response.json()], [None] when the body is not JSON *)
}.

Inductive reply : Type :=
| TransportError
| Response (r : response).

(** [Path.exists()]: a boolean, or the [OSError] of the underlying [stat]
    (a permission error, for one) that [exists] does not swallow. *)
Inductive exists_result : Type :=
| ExistsRaises
| Exists (found : bool).

(** [open] followed by [json.load]: the decoded value, or the exception
    that one of the two raises (the [OSError] of [open], the
    [json.JSONDecodeError] of [json.load] on text that is not JSON, its
    [UnicodeDecodeError] on a file that is not UTF-8 text, ...). *)
Inductive read_result : Type :=
| ReadRaises (e : exn)
| Loaded (v : json).

Inductive level : Type := DEBUG | INFO | SUCCESS | WARNING | ERROR.

Inductive event : Type :=
| Log (lvl : level) (msg : fstring)
| PathExists (path : string)
| FileOpen (path : string)
| SignalHandler (name : string)
| Http (req : request).

Definition is_Exception (e : exn) : bool :=
  match e with
  | SystemExit _ => false
  | _ => true
  end.

(** ** Which collaborator a request goes to *)

Definition url_starts_with (p : string) (u : fstring) : bool :=
  match u with
  | Lit s :: _ => String.prefix p s
  | _ => false
  end.

Definition is_ip_resolver_call (ev : event) : bool :=
  match ev with
  | Http req => url_starts_with "https://checkip.amazonaws.com" (url req)
  | _ => false
  end.

Definition is_dns_lookup_call (ev : event) : bool :=
  match ev with
  | Http req => url_starts_with "https://1.1.1.1/dns-query" (url req)
  | _ => false
  end.

Definition is_provider_call (ev : event) : bool :=
  match ev with
  | Http req => url_starts_with "https://api.cloudflare.com/" (url req)
  | _ => false
  end.

Definition is_put (m : http_method) : bool :=
  match m with PUT => true | GET => false end.

Definition is_update_call (ev : event) : bool :=
  match ev with
  | Http req => is_put (method req)
  | _ => false
  end.

Definition is_record_lookup_call (ev : event) : bool :=
  match ev with
  | Http req =>
      negb (is_put (method req)) &&
      match url req with
      | [Lit a; Val _; Lit b; Val _] =>
          String.eqb a "https://api.cloudflare.com/client/v4/zones/" &&
          String.eqb b "/dns_records?type=A&name="
      | _ => false
      end
  | _ => false
  end.

Definition is_config_load (ev : event) : bool :=
  match ev with
  | FileOpen _ => true
  | _ => false
  end.

(** Program state: the outside world and the module-level global [_config]. *)
Record state (W : Type) : Type := {
  world : W;
  _config : json
}.
Arguments world {W} s.
Arguments _config {W} s.

(** ** A stub world

    A small concrete network and file system: the DNS resolver answers
    with what the provider last stored, and a successful [PUT] stores the
    payload's content. *)

Module Stub.

Record t : Type := {
  config_present : bool;
  config : read_result;
  checkip : reply;
  resolver_up : bool;
  published : json;           (* content of the A record, [JNull] when there is none *)
  zones : reply;
  records : reply;
  writable : bool
}.

Definition page (v : json) : reply :=
  Response {| status_ok := true; text := EmptyString; body := Some v |}.

Definition envelope (result : json) : reply :=
  page (JObj [("success", JBool true); ("errors", JArr []); ("result", result)]).

Definition answer (name v : json) : json :=
  JObj [("name", name); ("type", JInt 1); ("TTL", JInt 300); ("data", v)].

Definition dns_json (name published : json) : json :=
  match published with
  | JNull => JObj [("Status", JInt 3)]
  | v => JObj [("Status", JInt 0); ("Answer", JArr [answer name v])]
  end.

Definition store (v : json) (w : t) : t :=
  {| config_present := config_present w; config := config w; checkip := checkip w;
     resolver_up := resolver_up w; published := v; zones := zones w;
     records := records w; writable := writable w |}.

Definition send (req : request) (w : t) : reply * t :=
  match url req with
  | [Lit _] => (checkip w, w)
  | [Lit _; Val name; Lit _] =>
      if url_starts_with "https://1.1.1.1/dns-query" (url req) then
        (if resolver_up w then page (dns_json name (published w)) else TransportError, w)
      else (zones w, w)
  | [Lit _; Val _; Lit _; Val _] =>
      match method req, payload req with
      | PUT, Some p =>
          if writable w then
            (envelope p,
             store (match py_get p "content" with Ok v => v | Raise _ => JNull end) w)
          else
            (page (JObj [("success", JBool false); ("errors", JArr [JStr "denied"])]), w)
      | _, _ => (records w, w)
      end
  | _ => (TransportError, w)
  end.

Definition path_exists (path : string) (w : t) : exists_result :=
  Exists (config_present w).

Definition read_json (path : string) (w : t) : read_result := config w.

Definition good_config : json :=
  JObj [("zone", JStr "example.com");
        ("dnsrecord", JStr "home.example.com");
        ("cloudflare_auth_email", JStr "me@example.com");
        ("cloudflare_auth_key", JStr "k3y")].

Definition plain (body_text : string) : reply :=
  Response {| status_ok := true; text := body_text; body := None |}.

(** A healthy world: external IP [ip], record currently holding [pub]. *)
Definition healthy (ip : string) (pub : json) : t :=
  {| config_present := true;
     config := Loaded good_config;
     checkip := plain ip;
     resolver_up := true;
     published := pub;
     zones := envelope (JArr [JObj [("id", JStr "z1")]; JObj [("id", JStr "z2")]]);
     records := envelope (JArr [JObj [("id", JStr "r1")]; JObj [("id", JStr "r2")]]);
     writable := true |}.

Definition init (w : t) : state t := {| world := w; _config := JNull |}.

(** Worlds that differ from a healthy one in a single respect. *)
Definition with_file (present : bool) (content : read_result) (w : t) : t :=
  {| config_present := present; config := content; checkip := checkip w;
     resolver_up := resolver_up w; published := published w; zones := zones w;
     records := records w; writable := writable w |}.

Definition with_checkip (r : reply) (w : t) : t :=
  {| config_present := config_present w; config := config w; checkip := r;
     resolver_up := resolver_up w; published := published w; zones := zones w;
     records := records w; writable := writable w |}.

Definition with_zones (r : reply) (w : t) : t :=
  {| config_present := config_present w; config := config w; checkip := checkip w;
     resolver_up := resolver_up w; published := published w; zones := r;
     records := records w; writable := writable w |}.

Definition with_resolver (up : bool) (w : t) : t :=
  {| config_present := config_present w; config := config w; checkip := checkip w;
     resolver_up := up; published := published w; zones := zones w;
     records := records w; writable := writable w |}.

(** Particular worlds and starting states. *)

Definition in_sync : state t := init (healthy "1.2.3.4" (JStr "1.2.3.4")).

Definition divergent : state t := init (healthy "5.6.7.8" (JStr "1.2.3.4")).

Definition unpublished : state t := init (healthy "1.2.3.4" JNull).

Definition offline : state t :=
  init (with_checkip TransportError (healthy "5.6.7.8" (JStr "1.2.3.4"))).

Definition no_zone : state t :=
  init (with_zones (envelope (JArr [])) (healthy "5.6.7.8" (JStr "1.2.3.4"))).

Definition resolver_down : state t :=
  init (with_resolver false (healthy "5.6.7.8" (JStr "1.2.3.4"))).

Definition both_empty : state t := init (healthy EmptyString (JStr EmptyString)).

Definition no_file : state t :=
  init (with_file false (ReadRaises OSError) (healthy "1.2.3.4" JNull)).

Definition incomplete_config : json :=
  JObj [("zone", JStr "example.com"); ("dnsrecord", JStr "home.example.com")].

Definition incomplete_file : state t :=
  init (with_file true (Loaded incomplete_config) (healthy "1.2.3.4" JNull)).

(** A file holding a JSON string, not an object: [in] is then a substring
    test and the validation passes. *)
Definition text_config : json :=
  JStr "zone dnsrecord cloudflare_auth_email cloudflare_auth_key".

Definition text_file : state t :=
  init (with_file true (Loaded text_config) (healthy "1.2.3.4" JNull)).

Definition blank_config : json :=
  JObj [("zone", JStr EmptyString); ("dnsrecord", JStr EmptyString);
        ("cloudflare_auth_email", JStr EmptyString);
        ("cloudflare_auth_key", JStr EmptyString)].

Definition blank_file : state t :=
  init (with_file true (Loaded blank_config) (healthy "1.2.3.4" JNull)).

Definition name : json := JStr "home.example.com".

Definition at_ (body : string) (pub cfg : json) : state t :=
  {| world := healthy body pub; _config := cfg |}.

Definition blank_ip : state t := init (healthy EmptyString JNull).

(** Further worlds: a transport that gives one reply to every request, a
    resolver with a fixed reply, and single changes to a healthy world. *)
Definition always (r : reply) (req : request) (w : t) : reply * t := (r, w).

Definition send_with_resolver_reply (r : reply) (req : request) (w : t) : reply * t :=
  if url_starts_with "https://1.1.1.1/dns-query" (url req) then (r, w) else send req w.

Definition with_records (r : reply) (w : t) : t :=
  {| config_present := config_present w; config := config w; checkip := checkip w;
     resolver_up := resolver_up w; published := published w; zones := zones w;
     records := r; writable := writable w |}.

Definition read_only (w : t) : t :=
  {| config_present := config_present w; config := config w; checkip := checkip w;
     resolver_up := resolver_up w; published := published w; zones := zones w;
     records := records w; writable := false |}.

Definition no_record : state t :=
  init (with_records (envelope (JArr [])) (healthy "5.6.7.8" (JStr "1.2.3.4"))).

Definition denied : state t := init (read_only (healthy "5.6.7.8" (JStr "1.2.3.4"))).

Definition scalar_file : state t :=
  init (with_file true (Loaded (JInt 7)) (healthy "1.2.3.4" JNull)).

Definition bad_json_file : state t :=
  init (with_file true (ReadRaises JSONDecodeError) (healthy "1.2.3.4" JNull)).

Definition api_error : response :=
  {| status_ok := true; text := EmptyString;
     body := Some (JObj [("success", JBool false);
                         ("errors", JArr [JStr "Invalid request headers"])]) |}.

Definition empty_result : response :=
  {| status_ok := true; text := EmptyString;
     body := Some (JObj [("success", JBool true); ("errors", JArr []);
                         ("result", JArr [])]) |}.

Definition updated : response :=
  {| status_ok := true; text := EmptyString;
     body := Some (JObj [("success", JBool true); ("messages", JArr [])]) |}.

Definition answer_without_data : response :=
  {| status_ok := true; text := EmptyString;
     body := Some (JObj [("Status", JInt 0);
                         ("Answer", JArr [JObj [("name", JStr "home.example.com")]])]) |}.

Definition list_reply : response :=
  {| status_ok := true; text := EmptyString; body := Some (JArr []) |}.


End Stub.

Section Program.

(** The outside world: any state type, any transport, any file system. *)
Context {W : Type}.
Variable send : request -> W -> reply * W.
Variable path_exists : string -> W -> exists_result.
Variable read_json : string -> W -> read_result.
(** Whether the error of [response.json()] derives from
    [requests.RequestException] (it does from requests 2.27 on). *)
Variable json_error_is_request_exception : bool.
(** The builtin [str.strip], with no argument. *)
Variable py_strip : string -> string.

Definition is_RequestException (e : exn) : bool :=
  match e with
  | RequestException => true
  | InvalidResponseJSON => json_error_is_request_exception
  | _ => false
  end.

Definition M (A : Type) : Type := state W -> outcome A * state W * list event.

Definition ret {A} (a : A) : M A := fun s => (Ok a, s, []).

Definition raise {A} (e : exn) : M A := fun s => (Raise e, s, []).

Definition bind {A B} (m : M A) (k : A -> M B) : M B :=
  fun s =>
    let '(r, s1, t1) := m s in
    match r with
    | Ok a => let '(r2, s2, t2) := k a s1 in (r2, s2, t1 ++ t2)
    | Raise e => (Raise e, s1, t1)
    end.

Definition lift {A} (o : outcome A) : M A := fun s => (o, s, []).

Definition emit (ev : event) : M unit := fun s => (Ok tt, s, [ev]).

Definition log (lvl : level) (msg : fstring) : M unit := emit (Log lvl msg).

(** [try: body except ...: handler]; [handler e = None] when no clause
    matches [e]. *)
Definition try_except {A} (body : M A) (handler : exn -> option (M A)) : M A :=
  fun s =>
    let '(r, s1, t1) := body s in
    match r with
    | Ok a => (Ok a, s1, t1)
    | Raise e =>
        match handler e with
        | Some h => let '(r2, s2, t2) := h s1 in (r2, s2, t1 ++ t2)
        | None => (Raise e, s1, t1)
        end
    end.

Definition sys_exit {A} (code : Z) : M A := raise (SystemExit code).

Notation "x <- m ;; k" := (bind m (fun x => k))
  (at level 61, m at next level, right associativity).
Notation "m ;; k" := (bind m (fun _ => k))
  (at level 61, right associativity).

(** *** The [requests] calls *)

Definition http (req : request) : M response :=
  fun s =>
    let '(r, w') := send req (world s) in
    (match r with
     | TransportError => Raise RequestException
     | Response resp => Ok resp
     end,
     {| world := w'; _config := _config s |},
     [Http req]).

Definition requests_get (u : fstring) (hs : list (string * json)) (t : Z) : M response :=
  http {| method := GET; url := u; headers := hs; payload := None; timeout := t |}.

Definition requests_put (u : fstring) (hs : list (string * json)) (p : json) (t : Z)
  : M response :=
  http {| method := PUT; url := u; headers := hs; payload := Some p; timeout := t |}.

Definition raise_for_status (resp : response) : M unit :=
  if status_ok resp then ret tt else raise RequestException.

Definition response_json (resp : response) : M json :=
  match body resp with
  | Some v => ret v
  | None => raise InvalidResponseJSON
  end.

(** *** [setup_logging]

    The sinks (console, rotated file) belong to the logging collaborator;
    what the program itself says is the one message. *)
Definition setup_logging : M unit :=
  log INFO [Lit "Logging initialized"].

(** *** [load_config] *)

Definition required_fields : list string :=
  ["zone"; "dnsrecord"; "cloudflare_auth_email"; "cloudflare_auth_key"].

(** [[field for field in required_fields if field not in config]] *)
Fixpoint missing_fields_of (fields : list string) (config : json)
  : outcome (list string) :=
  match fields with
  | [] => Ok []
  | field :: rest =>
      match py_contains field config with
      | Raise e => Raise e
      | Ok present =>
          match missing_fields_of rest config with
          | Raise e => Raise e
          | Ok l => Ok (if present then l else field :: l)
          end
      end
  end.

Definition exists_ (path : string) : M bool :=
  fun s =>
    (match path_exists path (world s) with
     | ExistsRaises => Raise OSError
     | Exists found => Ok found
     end, s, [PathExists path]).

(** [with open(config_file, 'r') as f: config = json.load(f)] *)
Definition open_and_load (path : string) : M json :=
  fun s =>
    (match read_json path (world s) with
     | ReadRaises e => Raise e
     | Loaded v => Ok v
     end, s, [FileOpen path]).

Definition load_config (config_path : string) : M json :=
  found <- exists_ config_path ;;
  (if negb found then
     log ERROR [Lit "Configuration file '"; Val (JStr config_path); Lit "' not found"] ;;
     log INFO [Lit "Please create a config.json file with the required parameters"] ;;
     log INFO [Lit "See config.sample.json for an example"] ;;
     sys_exit 1
   else ret tt) ;;
  try_except
    (config <- open_and_load config_path ;;
     missing_fields <- lift (missing_fields_of required_fields config) ;;
     (match missing_fields with
      | _ :: _ =>
          log ERROR [Lit "Missing required fields in config: "; Joined ", " missing_fields] ;;
          sys_exit 1
      | [] => ret tt
      end) ;;
     log DEBUG [Lit "Configuration loaded successfully from "; Val (JStr config_path)] ;;
     ret config)
    (fun e =>
       match e with
       | JSONDecodeError =>
           Some (log ERROR [Lit "Invalid JSON in configuration file: "; ExnStr e] ;;
                 sys_exit 1)
       | _ => None
       end).

(** *** [get_external_ip] *)

Definition get_external_ip : M string :=
  try_except
    (log DEBUG [Lit "Fetching external IP address from checkip.amazonaws.com"] ;;
     response <- requests_get [Lit "https://checkip.amazonaws.com"] [] 10 ;;
     raise_for_status response ;;
     let ip := py_strip (text response) in
     log DEBUG [Lit "External IP retrieved: "; Val (JStr ip)] ;;
     ret ip)
    (fun e =>
       if is_RequestException e then
         Some (log ERROR [Lit "Error getting external IP: "; ExnStr e] ;; raise e)
       else None).

(** *** [get_cloudflare_dns_ip]

    The result is a decoded value, or [JNull] for Python's [None]. *)

Definition get_cloudflare_dns_ip (dnsrecord : json) : M json :=
  try_except
    (log DEBUG [Lit "Querying Cloudflare DNS for "; Val dnsrecord] ;;
     response <- requests_get
                   [Lit "https://1.1.1.1/dns-query?name="; Val dnsrecord; Lit "&type=A"]
                   [("Accept", JStr "application/dns-json")] 10 ;;
     raise_for_status response ;;
     data <- response_json response ;;
     answer <- lift (py_get data "Answer") ;;
     if truthy answer then
       answers <- lift (py_getitem data "Answer") ;;
       first <- lift (py_getitem0 answers) ;;
       ip <- lift (py_getitem first "data") ;;
       log DEBUG [Lit "Cloudflare DNS returned: "; Val ip] ;;
       ret ip
     else
       log DEBUG [Lit "No DNS record found for "; Val dnsrecord] ;;
       ret JNull)
    (fun e =>
       if is_RequestException e then
         Some (log WARNING [Lit "Could not query DNS via Cloudflare API: "; ExnStr e] ;;
               ret JNull)
       else None).

(** *** The provider API *)

Definition auth_headers (auth_email auth_key : json) : list (string * json) :=
  [("X-Auth-Email", auth_email);
   ("X-Auth-Key", auth_key);
   ("Content-Type", JStr "application/json")].

Definition get_zone_id (zone auth_email auth_key : json) : M json :=
  let url := [Lit "https://api.cloudflare.com/client/v4/zones?name="; Val zone;
              Lit "&status=active"] in
  let headers := auth_headers auth_email auth_key in
  try_except
    (log DEBUG [Lit "Fetching zone ID for "; Val zone] ;;
     response <- requests_get url headers 10 ;;
     raise_for_status response ;;
     data <- response_json response ;;
     success <- lift (py_get data "success") ;;
     (if negb (truthy success) then
        errors <- lift (py_get data "errors") ;;
        log ERROR [Lit "Cloudflare API returned error: "; Val errors] ;;
        errors' <- lift (py_get data "errors") ;;
        raise (Exception [Lit "Cloudflare API error: "; Val errors'])
      else ret tt) ;;
     result <- lift (py_get data "result") ;;
     (if negb (truthy result) then
        log ERROR [Lit "Zone '"; Val zone; Lit "' not found"] ;;
        raise (Exception [Lit "Zone '"; Val zone; Lit "' not found"])
      else ret tt) ;;
     results <- lift (py_getitem data "result") ;;
     first <- lift (py_getitem0 results) ;;
     zone_id <- lift (py_getitem first "id") ;;
     log DEBUG [Lit "Zone ID for "; Val zone; Lit ": "; Val zone_id] ;;
     ret zone_id)
    (fun e =>
       if is_RequestException e then
         Some (log ERROR [Lit "Error getting zone ID: "; ExnStr e] ;; raise e)
       else None).

Definition get_dns_record_id (zone_id dnsrecord auth_email auth_key : json) : M json :=
  let url := [Lit "https://api.cloudflare.com/client/v4/zones/"; Val zone_id;
              Lit "/dns_records?type=A&name="; Val dnsrecord] in
  let headers := auth_headers auth_email auth_key in
  try_except
    (log DEBUG [Lit "Fetching DNS record ID for "; Val dnsrecord] ;;
     response <- requests_get url headers 10 ;;
     raise_for_status response ;;
     data <- response_json response ;;
     success <- lift (py_get data "success") ;;
     (if negb (truthy success) then
        errors <- lift (py_get data "errors") ;;
        log ERROR [Lit "Cloudflare API returned error: "; Val errors] ;;
        errors' <- lift (py_get data "errors") ;;
        raise (Exception [Lit "Cloudflare API error: "; Val errors'])
      else ret tt) ;;
     result <- lift (py_get data "result") ;;
     (if negb (truthy result) then
        log ERROR [Lit "DNS record '"; Val dnsrecord; Lit "' not found"] ;;
        raise (Exception [Lit "DNS record '"; Val dnsrecord; Lit "' not found"])
      else ret tt) ;;
     results <- lift (py_getitem data "result") ;;
     first <- lift (py_getitem0 results) ;;
     record_id <- lift (py_getitem first "id") ;;
     log DEBUG [Lit "DNS record ID for "; Val dnsrecord; Lit ": "; Val record_id] ;;
     ret record_id)
    (fun e =>
       if is_RequestException e then
         Some (log ERROR [Lit "Error getting DNS record ID: "; ExnStr e] ;; raise e)
       else None).

Definition update_payload (dnsrecord : json) (ip : string) : json :=
  JObj [("type", JStr "A");
        ("name", dnsrecord);
        ("content", JStr ip);
        ("ttl", JInt 1);
        ("proxied", JBool false)].

Definition update_dns_record (zone_id record_id dnsrecord : json) (ip : string)
           (auth_email auth_key : json) : M json :=
  let url := [Lit "https://api.cloudflare.com/client/v4/zones/"; Val zone_id;
              Lit "/dns_records/"; Val record_id] in
  let headers := auth_headers auth_email auth_key in
  let payload := update_payload dnsrecord ip in
  try_except
    (log DEBUG [Lit "Updating DNS record "; Val dnsrecord; Lit " to "; Val (JStr ip)] ;;
     response <- requests_put url headers payload 10 ;;
     raise_for_status response ;;
     data <- response_json response ;;
     success <- lift (py_get data "success") ;;
     (if negb (truthy success) then
        errors <- lift (py_get data "errors") ;;
        log ERROR [Lit "Failed to update DNS record: "; Val errors] ;;
        errors' <- lift (py_get data "errors") ;;
        raise (Exception [Lit "Failed to update DNS record: "; Val errors'])
      else ret tt) ;;
     log DEBUG [Lit "DNS record updated successfully"] ;;
     ret data)
    (fun e =>
       if is_RequestException e then
         Some (log ERROR [Lit "Error updating DNS record: "; ExnStr e] ;; raise e)
       else None).

(** *** [check_and_update_dns] *)

Definition set_config (cfg : json) : M unit :=
  fun s => (Ok tt, {| world := world s; _config := cfg |}, []).

(** [_config[k]] *)
Definition config_item (k : string) : M json :=
  fun s => (py_getitem (_config s) k, s, []).

(** The [try] block of [check_and_update_dns]. *)
Definition check_and_update_dns_try (zone dnsrecord auth_email auth_key : json) : M unit :=
  current_ip <- get_external_ip ;;
  log INFO [Lit "Current IP is "; Val (JStr current_ip)] ;;
  cf_ip <- get_cloudflare_dns_ip dnsrecord ;;
  log INFO [Lit "Cloudflare IP is "; Val cf_ip] ;;
  if truthy cf_ip && py_eq_str cf_ip current_ip then
    log SUCCESS [Val dnsrecord; Lit " is currently set to "; Val (JStr current_ip);
                 Lit "; no changes needed"]
  else
    log WARNING [Lit "DNS record needs updating from "; Val cf_ip; Lit " to ";
                 Val (JStr current_ip)] ;;
    zone_id <- get_zone_id zone auth_email auth_key ;;
    log INFO [Lit "Zone ID for "; Val zone; Lit " is "; Val zone_id] ;;
    record_id <- get_dns_record_id zone_id dnsrecord auth_email auth_key ;;
    log INFO [Lit "DNS record ID for "; Val dnsrecord; Lit " is "; Val record_id] ;;
    result <- update_dns_record zone_id record_id dnsrecord current_ip
                                auth_email auth_key ;;
    log SUCCESS [Lit "Successfully updated "; Val dnsrecord; Lit " to ";
                 Val (JStr current_ip)] ;;
    log DEBUG [Lit "Response: "; Dumps result 2].

(** Its [except Exception as e] clause. *)
Definition check_and_update_dns_except (e : exn) : option (M unit) :=
  if is_Exception e then
    Some (log ERROR [Lit "Unexpected error during DNS update: "; ExnStr e])
  else None.

Definition check_and_update_dns : M unit :=
  cfg <- load_config "config/config.json" ;;
  set_config cfg ;;
  zone <- config_item "zone" ;;
  dnsrecord <- config_item "dnsrecord" ;;
  auth_email <- config_item "cloudflare_auth_email" ;;
  auth_key <- config_item "cloudflare_auth_key" ;;
  log INFO [Lit "Starting DNS update check for "; Val dnsrecord] ;;
  try_except
    (check_and_update_dns_try zone dnsrecord auth_email auth_key)
    check_and_update_dns_except.

(** *** [main]

    The endless loop [while True: schedule.run_pending(); time.sleep(1)]
    runs the one scheduled job each time a minute has elapsed; [ticks]
    is the number of such runs that are observed.  Registering the two
    signal handlers is an event; the delivery of a signal, which ends the
    process through [sys.exit(0)], is asynchronous and not part of a run. *)

Fixpoint run_pending (ticks : nat) : M unit :=
  match ticks with
  | O => ret tt
  | S n => check_and_update_dns ;; run_pending n
  end.

Definition main (ticks : nat) : M unit :=
  setup_logging ;;
  cfg <- load_config "config/config.json" ;;
  set_config cfg ;;
  emit (SignalHandler "SIGINT") ;;
  emit (SignalHandler "SIGTERM") ;;
  dnsrecord <- config_item "dnsrecord" ;;
  log INFO [Lit "DNS Update Scheduler started for "; Val dnsrecord] ;;
  log INFO [Lit "Running checks every 1 minute. Press Ctrl+C to stop."] ;;
  check_and_update_dns ;;
  run_pending ticks.

(** ** Vocabulary of the statements *)

Definition config_path : string := "config/config.json".

Definition with_config (s : state W) (cfg : json) : state W :=
  {| world := world s; _config := cfg |}.

Definition with_world (s : state W) (w : W) : state W :=
  {| world := w; _config := _config s |}.

Definition checkip_request : request :=
  {| method := GET; url := [Lit "https://checkip.amazonaws.com"];
     headers := []; payload := None; timeout := 10 |}.

Definition dns_query (dnsrecord : json) : request :=
  {| method := GET;
     url := [Lit "https://1.1.1.1/dns-query?name="; Val dnsrecord; Lit "&type=A"];
     headers := [("Accept", JStr "application/dns-json")];
     payload := None; timeout := 10 |}.

Definition zones_request (zone auth_email auth_key : json) : request :=
  {| method := GET;
     url := [Lit "https://api.cloudflare.com/client/v4/zones?name="; Val zone;
             Lit "&status=active"];
     headers := auth_headers auth_email auth_key;
     payload := None; timeout := 10 |}.

Definition records_request (zone_id dnsrecord auth_email auth_key : json) : request :=
  {| method := GET;
     url := [Lit "https://api.cloudflare.com/client/v4/zones/"; Val zone_id;
             Lit "/dns_records?type=A&name="; Val dnsrecord];
     headers := auth_headers auth_email auth_key;
     payload := None; timeout := 10 |}.

Definition update_request (zone_id record_id dnsrecord : json) (ip : string)
           (auth_email auth_key : json) : request :=
  {| method := PUT;
     url := [Lit "https://api.cloudflare.com/client/v4/zones/"; Val zone_id;
             Lit "/dns_records/"; Val record_id];
     headers := auth_headers auth_email auth_key;
     payload := Some (update_payload dnsrecord ip); timeout := 10 |}.

Definition is_zone_lookup_call (ev : event) : bool :=
  match ev with
  | Http req =>
      negb (is_put (method req)) &&
      url_starts_with "https://api.cloudflare.com/client/v4/zones?name=" (url req)
  | _ => false
  end.

Definition started (dnsrecord : json) : event :=
  Log INFO [Lit "Starting DNS update check for "; Val dnsrecord].

Definition absorbed (e : exn) : event :=
  Log ERROR [Lit "Unexpected error during DNS update: "; ExnStr e].

Definition not_found_trace (path : string) : list event :=
  [PathExists path;
   Log ERROR [Lit "Configuration file '"; Val (JStr path); Lit "' not found"];
   Log INFO [Lit "Please create a config.json file with the required parameters"];
   Log INFO [Lit "See config.sample.json for an example"]].

Definition absent_from (fields : list (string * json)) (k : string) : bool :=
  match assoc k fields with
  | Some _ => false
  | None => true
  end.

(** The cycle's configuration load succeeds: the file holds [cfg], and
    the four values the cycle reads from it are these. *)
Definition configured (s : state W) (cfg zone dnsrecord auth_email auth_key : json)
           (t : list event) : Prop :=
  load_config config_path s = (Ok cfg, s, t) /\
  py_getitem cfg "zone" = Ok zone /\
  py_getitem cfg "dnsrecord" = Ok dnsrecord /\
  py_getitem cfg "cloudflare_auth_email" = Ok auth_email /\
  py_getitem cfg "cloudflare_auth_key" = Ok auth_key.

(** [quiet p m]: no run of [m] emits an event that [p] selects. *)
Definition quiet {A} (p : event -> bool) (m : M A) : Prop :=
  forall s, filter p (snd (m s)) = [].

(** A selector that looks at HTTP requests only. *)
Definition http_only (p : event -> bool) : Prop :=
  forall ev, p ev = true -> exists req, ev = Http req.

(** [raises_only q m]: whatever [m] raises satisfies [q]. *)
Definition raises_only {A} (q : exn -> bool) (m : M A) : Prop :=
  forall s e s' t, m s = (Raise e, s', t) -> q e = true.

Definition pure_raises_only {A} (q : exn -> bool) (o : outcome A) : Prop :=
  match o with
  | Raise e => q e = true
  | Ok _ => True
  end.

(** [keeps_config m]: [m] does not assign the global. *)
Definition keeps_config {A} (m : M A) : Prop :=
  forall s r s' t, m s = (r, s', t) -> _config s' = _config s.

(** Selectors used for what a run sends and says. *)
Definition is_http (ev : event) : bool :=
  match ev with
  | Http _ => true
  | _ => false
  end.

Definition has_header (k : string) (req : request) : bool :=
  match assoc k (headers req) with
  | Some _ => true
  | None => false
  end.

(** A request that carries a credential header to a host other than the
    provider's API. *)
Definition leaks_credentials (ev : event) : bool :=
  match ev with
  | Http req =>
      negb (url_starts_with "https://api.cloudflare.com/" (url req)) &&
      (has_header "X-Auth-Email" req || has_header "X-Auth-Key" req)
  | _ => false
  end.

(** A request whose timeout is not the ten seconds. *)
Definition unbounded_wait (ev : event) : bool :=
  match ev with
  | Http req => negb (timeout req =? 10)
  | _ => false
  end.

Definition is_success_log (ev : event) : bool :=
  match ev with
  | Log SUCCESS _ => true
  | _ => false
  end.

Definition is_error_log (ev : event) : bool :=
  match ev with
  | Log ERROR _ => true
  | _ => false
  end.

(** [l] is an initial segment of [full]. *)
Definition initial_segment {A} (l full : list A) : Prop :=
  exists rest, l ++ rest = full.

(** A decoded value that is neither a [dict], a [list] nor a [str]. *)
Definition is_scalar (v : json) : bool :=
  match v with
  | JNull | JBool _ | JInt _ | JFloat _ => true
  | _ => false
  end.

Definition is_object (v : json) : bool :=
  match v with
  | JObj _ => true
  | _ => false
  end.






(** A selector that rejects each of the five requests the program builds
    rejects everything a cycle, and a whole run, sends. *)
Definition rejects_all_requests (p : event -> bool) : Prop :=
  p (Http checkip_request) = false /\
  (forall d, p (Http (dns_query d)) = false) /\
  (forall z e k, p (Http (zones_request z e k)) = false) /\
  (forall zid d e k, p (Http (records_request zid d e k)) = false) /\
  (forall zid rid d ip e k, p (Http (update_request zid rid d ip e k)) = false).

(** The two lines that tell the branches of the cycle apart. *)
Definition no_change (dnsrecord : json) (current_ip : string) : event :=
  Log SUCCESS [Val dnsrecord; Lit " is currently set to "; Val (JStr current_ip);
               Lit "; no changes needed"].

Definition needs_updating (cf_ip : json) (current_ip : string) : event :=
  Log WARNING [Lit "DNS record needs updating from "; Val cf_ip; Lit " to ";
               Val (JStr current_ip)].

Definition is_no_change_log (ev : event) : bool :=
  match ev with
  | Log SUCCESS (Val _ :: Lit s :: _) => String.eqb s " is currently set to "
  | _ => false
  end.


(** The requests a cycle is to send from state [s0] on, read off what the
    operations return there: each request carries the values the earlier
    operations of the same cycle returned. *)
Definition cycle_requests (zone dnsrecord auth_email auth_key : json) (s0 : state W)
  : list event :=
  Http checkip_request ::
  match get_external_ip s0 with
  | (Raise _, _, _) => []
  | (Ok current_ip, s1, _) =>
      Http (dns_query dnsrecord) ::
      match get_cloudflare_dns_ip dnsrecord s1 with
      | (Raise _, _, _) => []
      | (Ok cf_ip, s2, _) =>
          if truthy cf_ip && py_eq_str cf_ip current_ip then []
          else
            Http (zones_request zone auth_email auth_key) ::
            match get_zone_id zone auth_email auth_key s2 with
            | (Raise _, _, _) => []
            | (Ok zone_id, s3, _) =>
                Http (records_request zone_id dnsrecord auth_email auth_key) ::
                match get_dns_record_id zone_id dnsrecord auth_email auth_key s3 with
                | (Raise _, _, _) => []
                | (Ok record_id, _, _) =>
                    [Http (update_request zone_id record_id dnsrecord current_ip
                                          auth_email auth_key)]
                end
            end
      end
  end.


(** ** Running computations *)

Lemma bind_ok {A B} (m : M A) (k : A -> M B) s a s1 t1 :
  m s = (Ok a, s1, t1) ->
  bind m k s = (let '(r2, s2, t2) := k a s1 in (r2, s2, t1 ++ t2)).
Proof. intros H. unfold bind. rewrite H. reflexivity. Qed.

Lemma bind_raise {A B} (m : M A) (k : A -> M B) s e s1 t1 :
  m s = (Raise e, s1, t1) ->
  bind m k s = (Raise e, s1, t1).
Proof. intros H. unfold bind. rewrite H. reflexivity. Qed.

Lemma quiet_ret {A} p (a : A) : quiet p (ret a).
Proof. intros s. reflexivity. Qed.

Lemma quiet_raise {A} p e : quiet p (@raise A e).
Proof. intros s. reflexivity. Qed.

Lemma quiet_lift {A} p (o : outcome A) : quiet p (lift o).
Proof. intros s. reflexivity. Qed.

Lemma quiet_emit p ev : p ev = false -> quiet p (emit ev).
Proof. intros H s. simpl. rewrite H. reflexivity. Qed.

Lemma quiet_http p req : p (Http req) = false -> quiet p (http req).
Proof.
  intros H s. unfold http. destruct (send req (world s)) as [r w'].
  simpl. rewrite H. reflexivity.
Qed.

Lemma quiet_bind {A B} p (m : M A) (k : A -> M B) :
  quiet p m -> (forall a, quiet p (k a)) -> quiet p (bind m k).
Proof.
  intros Hm Hk s. unfold bind. specialize (Hm s).
  destruct (m s) as [[[a|e] s1] t1]; simpl in *; auto.
  specialize (Hk a s1). destruct (k a s1) as [[r2 s2] t2]; simpl in *.
  rewrite filter_app, Hm, Hk. reflexivity.
Qed.

Lemma quiet_try {A} p (body : M A) handler :
  quiet p body ->
  (forall e, match handler e with Some h => quiet p h | None => True end) ->
  quiet p (try_except body handler).
Proof.
  intros Hb Hh s. unfold try_except. specialize (Hb s).
  destruct (body s) as [[[a|e] s1] t1]; simpl in *; auto.
  specialize (Hh e). destruct (handler e) as [h|]; simpl; auto.
  specialize (Hh s1). destruct (h s1) as [[r2 s2] t2]; simpl in *.
  rewrite filter_app, Hb, Hh. reflexivity.
Qed.

Lemma quiet_exists p path : p (PathExists path) = false -> quiet p (exists_ path).
Proof. intros H s. simpl. rewrite H. reflexivity. Qed.

Lemma quiet_open p path : p (FileOpen path) = false -> quiet p (open_and_load path).
Proof. intros H s. simpl. rewrite H. reflexivity. Qed.

Lemma quiet_set_config p cfg : quiet p (set_config cfg).
Proof. intros s. reflexivity. Qed.

Lemma quiet_config_item p k : quiet p (config_item k).
Proof. intros s. reflexivity. Qed.

Ltac quiet_step :=
  first
    [ apply quiet_ret | apply quiet_raise | apply quiet_lift
    | apply quiet_set_config | apply quiet_config_item
    | apply quiet_emit; reflexivity
    | apply quiet_http; reflexivity
    | apply quiet_exists; reflexivity
    | apply quiet_open; reflexivity
    | apply quiet_bind; [ | intros ? ]
    | apply quiet_try; [ | intros ? ]
    | exact I
    | match goal with
      | |- quiet _ (if ?b then _ else _) => destruct b
      | |- quiet _ (match ?x with _ => _ end) => destruct x
      | |- match (if ?b then _ else _) with _ => _ end => destruct b
      | |- match (match ?x with _ => _ end) with _ => _ end => destruct x
      end ].

(** ** What each operation puts on the wire *)

Lemma http_only_log p l m : http_only p -> p (Log l m) = false.
Proof.
  intros H. destruct (p (Log l m)) eqn:E; auto.
  destruct (H _ E) as [req Hreq]. discriminate.
Qed.

Lemma http_only_exists p path : http_only p -> p (PathExists path) = false.
Proof.
  intros H. destruct (p (PathExists path)) eqn:E; auto.
  destruct (H _ E) as [req Hreq]. discriminate.
Qed.

Lemma http_only_open p path : http_only p -> p (FileOpen path) = false.
Proof.
  intros H. destruct (p (FileOpen path)) eqn:E; auto.
  destruct (H _ E) as [req Hreq]. discriminate.
Qed.

Ltac wire Hp :=
  unfold requests_get, requests_put, raise_for_status, response_json, sys_exit, log;
  repeat first
    [ apply quiet_emit; apply (http_only_log _ _ _ Hp)
    | apply quiet_exists; apply (http_only_exists _ _ Hp)
    | apply quiet_open; apply (http_only_open _ _ Hp)
    | apply quiet_http; assumption
    | quiet_step ].

Lemma load_config_quiet p path : http_only p -> quiet p (load_config path).
Proof. intros Hp. unfold load_config. wire Hp. Qed.

Lemma get_external_ip_quiet p :
  http_only p -> p (Http checkip_request) = false -> quiet p get_external_ip.
Proof. intros Hp H. unfold get_external_ip. wire Hp. Qed.

Lemma get_cloudflare_dns_ip_quiet p dnsrecord :
  http_only p -> p (Http (dns_query dnsrecord)) = false ->
  quiet p (get_cloudflare_dns_ip dnsrecord).
Proof. intros Hp H. unfold get_cloudflare_dns_ip. wire Hp. Qed.

Lemma get_zone_id_quiet p zone auth_email auth_key :
  http_only p -> p (Http (zones_request zone auth_email auth_key)) = false ->
  quiet p (get_zone_id zone auth_email auth_key).
Proof. intros Hp H. unfold get_zone_id. wire Hp. Qed.

Lemma get_dns_record_id_quiet p zone_id dnsrecord auth_email auth_key :
  http_only p ->
  p (Http (records_request zone_id dnsrecord auth_email auth_key)) = false ->
  quiet p (get_dns_record_id zone_id dnsrecord auth_email auth_key).
Proof. intros Hp H. unfold get_dns_record_id. wire Hp. Qed.

Lemma http_only_provider : http_only is_provider_call.
Proof. intros [] H; try discriminate. eauto. Qed.

Lemma http_only_dns_lookup : http_only is_dns_lookup_call.
Proof. intros [] H; try discriminate. eauto. Qed.

Lemma http_only_update : http_only is_update_call.
Proof. intros [] H; try discriminate. eauto. Qed.

Lemma http_only_record_lookup : http_only is_record_lookup_call.
Proof. intros [] H; try discriminate. eauto. Qed.

(** ** What each operation can raise *)

Lemma raises_only_ret {A} q (a : A) : raises_only q (ret a).
Proof. intros s e s' t H. discriminate. Qed.

Lemma raises_only_raise {A} q e : q e = true -> raises_only q (@raise A e).
Proof. intros H s e' s' t E. inversion E. subst. exact H. Qed.

Lemma raises_only_lift {A} q (o : outcome A) :
  pure_raises_only q o -> raises_only q (lift o).
Proof. intros H s e s' t E. inversion E. subst. exact H. Qed.

Lemma raises_only_emit q ev : raises_only q (emit ev).
Proof. intros s e s' t H. discriminate. Qed.

Lemma raises_only_http q req :
  q RequestException = true -> raises_only q (http req).
Proof.
  intros H s e s' t. unfold http.
  destruct (send req (world s)) as [[|resp] w']; intros E; inversion E.
  exact H.
Qed.

Lemma raises_only_bind {A B} q (m : M A) (k : A -> M B) :
  raises_only q m -> (forall a, raises_only q (k a)) -> raises_only q (bind m k).
Proof.
  intros Hm Hk s e s' t. unfold bind.
  destruct (m s) as [[[a|e1] s1] t1] eqn:Em.
  - destruct (k a s1) as [[r2 s2] t2] eqn:Ek. intros E. inversion E. subst.
    eapply Hk. eassumption.
  - intros E. inversion E. subst. eapply Hm. eassumption.
Qed.

Lemma raises_only_try {A} q (body : M A) handler :
  (forall s e s' t, body s = (Raise e, s', t) ->
     match handler e with
     | Some h => raises_only q h
     | None => q e = true
     end) ->
  raises_only q (try_except body handler).
Proof.
  intros Hb s e s' t. unfold try_except.
  destruct (body s) as [[[a|e1] s1] t1] eqn:Eb.
  - intros E. discriminate.
  - specialize (Hb _ _ _ _ Eb). destruct (handler e1) as [h|].
    + destruct (h s1) as [[r2 s2] t2] eqn:Eh. intros E. inversion E. subst.
      eapply Hb. eassumption.
    + intros E. inversion E. subst. exact Hb.
Qed.

Lemma py_get_raises data k : pure_raises_only is_Exception (py_get data k).
Proof. destruct data; simpl; auto. Qed.

Lemma py_getitem_raises data k : pure_raises_only is_Exception (py_getitem data k).
Proof. destruct data; simpl; auto. destruct (assoc k fields); simpl; auto. Qed.

Lemma py_getitem0_raises data : pure_raises_only is_Exception (py_getitem0 data).
Proof.
  destruct data; simpl; auto.
  - destruct s; simpl; auto.
  - destruct items; simpl; auto.
Qed.

Lemma is_RequestException_Exception e :
  is_RequestException e = true -> is_Exception e = true.
Proof. destruct e; simpl; auto; discriminate. Qed.

Lemma raises_only_try_handlers {A} q (body : M A) handler :
  raises_only q body ->
  (forall e h, handler e = Some h -> raises_only q h) ->
  raises_only q (try_except body handler).
Proof.
  intros Hb Hh. apply raises_only_try. intros s e s' t E.
  destruct (handler e) as [h|] eqn:Eh.
  - eapply Hh. eassumption.
  - eapply Hb. eassumption.
Qed.

Ltac exn_step :=
  first
    [ apply raises_only_ret
    | apply raises_only_emit
    | apply raises_only_raise; reflexivity
    | apply raises_only_http; reflexivity
    | apply raises_only_lift;
      first [ apply py_get_raises | apply py_getitem_raises | apply py_getitem0_raises ]
    | apply raises_only_bind; [ | intros ? ]
    | match goal with
      | |- raises_only _ (if ?b then _ else _) => destruct b
      | |- raises_only _ (match ?x with _ => _ end) => destruct x
      end ].

(** The clauses [except requests.RequestException as e] either re-raise
    [e], an [Exception], or return. *)
Ltac exn_handler :=
  let e := fresh "e" in
  let h := fresh "h" in
  let Hh := fresh "Hh" in
  let Er := fresh "Er" in
  intros e h Hh;
  destruct (is_RequestException e) eqn:Er; inversion Hh; subst; clear Hh;
  repeat first
    [ apply raises_only_raise; apply is_RequestException_Exception; exact Er
    | exn_step ].

Ltac exn_all f :=
  unfold f; cbv zeta;
  apply raises_only_try_handlers;
  [ unfold requests_get, requests_put, raise_for_status, response_json, log;
    repeat exn_step
  | unfold log; exn_handler ].

Lemma get_external_ip_raises : raises_only is_Exception get_external_ip.
Proof. exn_all get_external_ip. Qed.

Lemma get_cloudflare_dns_ip_raises dnsrecord :
  raises_only is_Exception (get_cloudflare_dns_ip dnsrecord).
Proof. exn_all get_cloudflare_dns_ip. Qed.

Lemma get_zone_id_raises zone auth_email auth_key :
  raises_only is_Exception (get_zone_id zone auth_email auth_key).
Proof. exn_all get_zone_id. Qed.

Lemma get_dns_record_id_raises zone_id dnsrecord auth_email auth_key :
  raises_only is_Exception (get_dns_record_id zone_id dnsrecord auth_email auth_key).
Proof. exn_all get_dns_record_id. Qed.

Lemma update_dns_record_raises zone_id record_id dnsrecord ip auth_email auth_key :
  raises_only is_Exception
    (update_dns_record zone_id record_id dnsrecord ip auth_email auth_key).
Proof. exn_all update_dns_record. Qed.

(** ** [load_config], case by case *)

Lemma py_contains_raises k config e :
  py_contains k config = Raise e -> e = TypeError.
Proof. destruct config; simpl; intros H; inversion H; reflexivity. Qed.

Lemma missing_fields_of_raises fields config e :
  missing_fields_of fields config = Raise e -> e = TypeError.
Proof.
  induction fields as [|f rest IH]; simpl; [ discriminate | ].
  destruct (py_contains f config) as [present|e1] eqn:Ep.
  - destruct (missing_fields_of rest config) as [l|e2]; [ discriminate | ].
    intros H. inversion H. subst. auto.
  - intros H. inversion H. subst. eapply py_contains_raises. eassumption.
Qed.

Lemma load_config_cases path s :
  load_config path s =
  match path_exists path (world s) with
  | ExistsRaises => (Raise OSError, s, [PathExists path])
  | Exists false => (Raise (SystemExit 1), s, not_found_trace path)
  | Exists true =>
    match read_json path (world s) with
    | ReadRaises JSONDecodeError =>
        (Raise (SystemExit 1), s,
         [PathExists path; FileOpen path;
          Log ERROR [Lit "Invalid JSON in configuration file: "; ExnStr JSONDecodeError]])
    | ReadRaises e => (Raise e, s, [PathExists path; FileOpen path])
    | Loaded config =>
        match missing_fields_of required_fields config with
        | Raise _ => (Raise TypeError, s, [PathExists path; FileOpen path])
        | Ok [] =>
            (Ok config, s,
             [PathExists path; FileOpen path;
              Log DEBUG [Lit "Configuration loaded successfully from "; Val (JStr path)]])
        | Ok (f :: l) =>
            (Raise (SystemExit 1), s,
             [PathExists path; FileOpen path;
              Log ERROR [Lit "Missing required fields in config: "; Joined ", " (f :: l)]])
        end
    end
  end.
Proof.
  unfold load_config, bind, try_except, exists_, open_and_load, sys_exit, raise,
    log, emit, lift, ret.
  destruct (path_exists path (world s)) as [|[|]]; cbn -[missing_fields_of];
    try reflexivity.
  destruct (read_json path (world s)) as [e|config]; cbn -[missing_fields_of];
    [ destruct e; reflexivity | ].
  destruct (missing_fields_of required_fields config) as [[|f l]|e] eqn:Em;
    cbn -[missing_fields_of]; try reflexivity.
  apply missing_fields_of_raises in Em. subst e. reflexivity.
Qed.

Lemma load_config_state path s r s' t :
  load_config path s = (r, s', t) -> s' = s.
Proof.
  rewrite load_config_cases.
  destruct (path_exists path (world s)) as [|[|]].
  - intros H. inversion H. reflexivity.
  - destruct (read_json path (world s)) as [e|config].
    + destruct e; intros H; inversion H; reflexivity.
    + destruct (missing_fields_of required_fields config) as [[|f l]|e];
        intros H; inversion H; reflexivity.
  - intros H. inversion H. reflexivity.
Qed.

Lemma missing_fields_of_nil fields config :
  missing_fields_of fields config = Ok [] ->
  forall f, In f fields -> py_contains f config = Ok true.
Proof.
  induction fields as [|f0 rest IH]; simpl; intros H f Hin.
  - contradiction.
  - destruct (py_contains f0 config) as [present|e] eqn:Ep; [ | discriminate ].
    destruct (missing_fields_of rest config) as [l|e] eqn:Em; [ | discriminate ].
    destruct present; [ | discriminate ].
    inversion H. subst l.
    destruct Hin as [<-|Hin]; [ exact Ep | apply IH; auto ].
Qed.

Lemma load_config_validated path s config s' t :
  load_config path s = (Ok config, s', t) ->
  forall f, In f required_fields -> py_contains f config = Ok true.
Proof.
  rewrite load_config_cases.
  destruct (path_exists path (world s)) as [|[|]]; try discriminate.
  destruct (read_json path (world s)) as [e0|c]; [ destruct e0; discriminate | ].
  destruct (missing_fields_of required_fields c) as [[|f0 l]|e] eqn:Em;
    try discriminate.
  intros H. inversion H. subst. apply missing_fields_of_nil. exact Em.
Qed.

Lemma validated_field fields k :
  py_contains k (JObj fields) = Ok true ->
  exists v, assoc k fields = Some v /\ py_getitem (JObj fields) k = Ok v.
Proof.
  simpl. destruct (assoc k fields) as [v|]; [ | discriminate ].
  intros _. exists v. auto.
Qed.

(** ** The published-IP lookup *)

(** C4. [get_cloudflare_dns_ip] does not raise on a transport failure or on
    a lookup miss: when the request fails (no reply, or an error status) it
    logs a warning and returns [None]; when the reply is a JSON object whose
    [Answer] is absent or empty it returns [None]; and when [Answer] is a
    non-empty array it returns the [data] field of its first element. *)
Theorem get_cloudflare_dns_ip_contract :
  forall (dnsrecord : json) (s : state W) (rep : reply) (w' : W),
    send (dns_query dnsrecord) (world s) = (rep, w') ->
    let run := get_cloudflare_dns_ip dnsrecord s in
    let asked := [Log DEBUG [Lit "Querying Cloudflare DNS for "; Val dnsrecord];
                  Http (dns_query dnsrecord)] in
    (* transport failure *)
    ((rep = TransportError \/ (exists r, rep = Response r /\ status_ok r = false)) ->
     run = (Ok JNull, with_world s w',
            asked ++ [Log WARNING [Lit "Could not query DNS via Cloudflare API: ";
                                   ExnStr RequestException]])) /\
    (* lookup miss *)
    (forall r fields,
        rep = Response r -> status_ok r = true -> body r = Some (JObj fields) ->
        (assoc "Answer" fields = None \/ assoc "Answer" fields = Some (JArr [])) ->
        run = (Ok JNull, with_world s w',
               asked ++ [Log DEBUG [Lit "No DNS record found for "; Val dnsrecord]])) /\
    (* an answer *)
    (forall r fields first rest ip,
        rep = Response r -> status_ok r = true -> body r = Some (JObj fields) ->
        assoc "Answer" fields = Some (JArr (JObj first :: rest)) ->
        assoc "data" first = Some ip ->
        run = (Ok ip, with_world s w',
               asked ++ [Log DEBUG [Lit "Cloudflare DNS returned: "; Val ip]])).
Proof.
  intros dnsrecord s rep w' Hsend run asked. subst run asked.
  unfold get_cloudflare_dns_ip, try_except, bind, requests_get, http, log, emit.
  change {| method := GET;
            url := [Lit "https://1.1.1.1/dns-query?name="; Val dnsrecord; Lit "&type=A"];
            headers := [("Accept", JStr "application/dns-json")];
            payload := None; timeout := 10 |} with (dns_query dnsrecord).
  rewrite Hsend. unfold with_world.
  split; [ | split ].
  - intros [-> | (r & -> & Hr)]; [ reflexivity | ].
    unfold raise_for_status. rewrite Hr. reflexivity.
  - intros r fields -> Hok Hbody Hmiss.
    unfold raise_for_status, response_json. rewrite Hok, Hbody. simpl.
    destruct Hmiss as [-> | ->]; reflexivity.
  - intros r fields first rest ip -> Hok Hbody Hans Hdata.
    unfold raise_for_status, response_json. rewrite Hok, Hbody. simpl.
    rewrite Hans. simpl. rewrite Hdata. reflexivity.
Qed.

(** ** Zone and record resolution *)

(** C10. When the zone listing (resp. the record listing) succeeds with a
    result array of two or more entries, [get_zone_id] (resp.
    [get_dns_record_id]) does not fail: it returns the [id] field of the
    first entry. *)
Theorem resolution_takes_first_of_many :
  forall (s : state W) (r : response) (w' : W) (fields : list (string * json))
         (success : json) (first : list (string * json)) (second : json)
         (rest : list json) (id : json),
    status_ok r = true ->
    body r = Some (JObj fields) ->
    assoc "success" fields = Some success ->
    truthy success = true ->
    assoc "result" fields = Some (JArr (JObj first :: second :: rest)) ->
    assoc "id" first = Some id ->
    (forall zone auth_email auth_key,
        send (zones_request zone auth_email auth_key) (world s) = (Response r, w') ->
        get_zone_id zone auth_email auth_key s =
        (Ok id, with_world s w',
         [Log DEBUG [Lit "Fetching zone ID for "; Val zone];
          Http (zones_request zone auth_email auth_key);
          Log DEBUG [Lit "Zone ID for "; Val zone; Lit ": "; Val id]])) /\
    (forall zone_id dnsrecord auth_email auth_key,
        send (records_request zone_id dnsrecord auth_email auth_key) (world s)
          = (Response r, w') ->
        get_dns_record_id zone_id dnsrecord auth_email auth_key s =
        (Ok id, with_world s w',
         [Log DEBUG [Lit "Fetching DNS record ID for "; Val dnsrecord];
          Http (records_request zone_id dnsrecord auth_email auth_key);
          Log DEBUG [Lit "DNS record ID for "; Val dnsrecord; Lit ": "; Val id]])).
Proof.
  intros s r w' fields success first second rest id Hok Hbody Hsucc Htrue Hres Hid.
  split.
  - intros zone auth_email auth_key Hsend.
    unfold get_zone_id, try_except, bind, requests_get, http, log, emit.
    fold (zones_request zone auth_email auth_key).
    rewrite Hsend. unfold raise_for_status, response_json, with_world.
    rewrite Hok, Hbody. simpl. rewrite Hsucc. simpl. rewrite Htrue. simpl.
    rewrite Hres. simpl. rewrite Hid. reflexivity.
  - intros zone_id dnsrecord auth_email auth_key Hsend.
    unfold get_dns_record_id, try_except, bind, requests_get, http, log, emit.
    fold (records_request zone_id dnsrecord auth_email auth_key).
    rewrite Hsend. unfold raise_for_status, response_json, with_world.
    rewrite Hok, Hbody. simpl. rewrite Hsucc. simpl. rewrite Htrue. simpl.
    rewrite Hres. simpl. rewrite Hid. reflexivity.
Qed.

(** ** The reconciliation cycle *)

Lemma cycle_configured s cfg zone dnsrecord auth_email auth_key t0 :
  configured s cfg zone dnsrecord auth_email auth_key t0 ->
  check_and_update_dns s =
  let '(r, s', t) :=
    try_except (check_and_update_dns_try zone dnsrecord auth_email auth_key)
               check_and_update_dns_except (with_config s cfg) in
  (r, s', t0 ++ started dnsrecord :: t).
Proof.
  intros (Hload & Hz & Hd & He & Hk).
  unfold check_and_update_dns. fold config_path.
  rewrite (bind_ok _ _ _ _ _ _ Hload).
  unfold bind, set_config, config_item, log, emit. cbn [_config world].
  rewrite Hz, Hd, He, Hk. fold (with_config s cfg).
  destruct (try_except _ _ (with_config s cfg)) as [[r s'] t]. reflexivity.
Qed.

Lemma cycle_load_fails s e s' t :
  load_config config_path s = (Raise e, s', t) ->
  check_and_update_dns s = (Raise e, s', t).
Proof.
  intros H. unfold check_and_update_dns. fold config_path.
  apply bind_raise. exact H.
Qed.

(** A valid JSON object in the file makes the cycle configured. *)
Lemma loaded_object_configured s fields s' t :
  load_config config_path s = (Ok (JObj fields), s', t) ->
  exists zone dnsrecord auth_email auth_key,
    configured s (JObj fields) zone dnsrecord auth_email auth_key t.
Proof.
  intros H. pose proof (load_config_state _ _ _ _ _ H). subst s'.
  pose proof (load_config_validated _ _ _ _ _ H) as Hv.
  destruct (validated_field fields "zone") as (z & _ & Hz);
    [ apply Hv; simpl; auto | ].
  destruct (validated_field fields "dnsrecord") as (d & _ & Hd);
    [ apply Hv; simpl; auto | ].
  destruct (validated_field fields "cloudflare_auth_email") as (e & _ & He);
    [ apply Hv; simpl; auto | ].
  destruct (validated_field fields "cloudflare_auth_key") as (k & _ & Hk);
    [ apply Hv; simpl; auto | ].
  exists z, d, e, k. unfold configured. auto.
Qed.

(** The [except Exception] clause absorbs whatever the [try] block raises. *)
Lemma try_block_raises zone dnsrecord auth_email auth_key :
  raises_only is_Exception (check_and_update_dns_try zone dnsrecord auth_email auth_key).
Proof.
  unfold check_and_update_dns_try, log.
  repeat first
    [ apply get_external_ip_raises | apply get_cloudflare_dns_ip_raises
    | apply get_zone_id_raises | apply get_dns_record_id_raises
    | apply update_dns_record_raises | exn_step ].
Qed.

Lemma guarded_cycle_returns zone dnsrecord auth_email auth_key s :
  exists s' t,
    try_except (check_and_update_dns_try zone dnsrecord auth_email auth_key)
               check_and_update_dns_except s = (Ok tt, s', t).
Proof.
  unfold try_except.
  destruct (check_and_update_dns_try zone dnsrecord auth_email auth_key s)
    as [[[[]|e] s1] t1] eqn:E.
  - eauto.
  - apply try_block_raises in E. unfold check_and_update_dns_except.
    rewrite E. simpl. eauto.
Qed.

Lemma filter_nil_app {A} (p : A -> bool) l1 l2 :
  filter p l1 = [] -> filter p l2 = [] -> filter p (l1 ++ l2) = [].
Proof. intros H1 H2. rewrite filter_app, H1, H2. reflexivity. Qed.

Ltac same_trace :=
  simpl; repeat (rewrite <- app_assoc; simpl); reflexivity.

Lemma run_quiet {A} p (m : M A) s r s' t :
  quiet p m -> m s = (r, s', t) -> filter p t = [].
Proof. intros Hq E. specialize (Hq s). rewrite E in Hq. exact Hq. Qed.

(** The in-sync cycle: what it returns, and that only the IP resolver and
    the DNS lookup were contacted. *)
Lemma in_sync_cycle_run
      (s s1 s2 : state W) (cfg zone dnsrecord auth_email auth_key : json)
      (t0 t1 t2 : list event) (current_ip : string) (cf_ip : json) :
  configured s cfg zone dnsrecord auth_email auth_key t0 ->
  get_external_ip (with_config s cfg) = (Ok current_ip, s1, t1) ->
  get_cloudflare_dns_ip dnsrecord s1 = (Ok cf_ip, s2, t2) ->
  truthy cf_ip = true ->
  py_eq_str cf_ip current_ip = true ->
  exists t,
    check_and_update_dns s =
    (Ok tt, s2,
     t ++ [Log SUCCESS [Val dnsrecord; Lit " is currently set to ";
                        Val (JStr current_ip); Lit "; no changes needed"]]) /\
    forall p, http_only p ->
              p (Http checkip_request) = false ->
              p (Http (dns_query dnsrecord)) = false ->
              filter p t = [].
Proof.
  intros Hcfg Hip Hcf Htrue Heq.
  rewrite (cycle_configured _ _ _ _ _ _ _ Hcfg).
  unfold try_except, check_and_update_dns_try.
  rewrite (bind_ok _ _ _ _ _ _ Hip).
  unfold bind at 1. unfold log at 1. unfold emit at 1.
  rewrite (bind_ok _ _ _ _ _ _ Hcf).
  unfold bind at 1. unfold log at 1. unfold emit at 1.
  rewrite Htrue, Heq. cbn [andb]. unfold log, emit.
  exists (t0 ++ started dnsrecord :: t1 ++
          Log INFO [Lit "Current IP is "; Val (JStr current_ip)] :: t2 ++
          [Log INFO [Lit "Cloudflare IP is "; Val cf_ip]]).
  split.
  - f_equal. same_trace.
  - intros p Hp H1 H2. destruct Hcfg as (Hload & _).
    pose proof (http_only_log p) as Hlog.
    repeat first
      [ apply filter_nil_app
      | cbn [filter]; unfold started; rewrite Hlog by exact Hp
      | reflexivity
      | eapply run_quiet; [ | exact Hload ]; apply load_config_quiet; exact Hp
      | eapply run_quiet; [ | exact Hip ]; apply get_external_ip_quiet; assumption
      | eapply run_quiet; [ | exact Hcf ]; apply get_cloudflare_dns_ip_quiet;
        assumption ].
Qed.

(** C1 (as amended). In a cycle where the DNS lookup returns a published
    IP that is true in Python's sense (so not the empty string) and equal
    to the external IP just fetched, the cycle returns normally with the success message as its last
    event, and no request at all goes to the provider API. *)
Theorem in_sync_cycle_makes_no_provider_call :
  forall (s s1 s2 : state W) (cfg zone dnsrecord auth_email auth_key : json)
         (t0 t1 t2 : list event) (current_ip : string) (cf_ip : json),
    configured s cfg zone dnsrecord auth_email auth_key t0 ->
    get_external_ip (with_config s cfg) = (Ok current_ip, s1, t1) ->
    get_cloudflare_dns_ip dnsrecord s1 = (Ok cf_ip, s2, t2) ->
    truthy cf_ip = true ->
    py_eq_str cf_ip current_ip = true ->
    exists t,
      check_and_update_dns s =
      (Ok tt, s2,
       t ++ [Log SUCCESS [Val dnsrecord; Lit " is currently set to ";
                          Val (JStr current_ip); Lit "; no changes needed"]]) /\
      filter is_provider_call t = [].
Proof.
  intros s s1 s2 cfg zone dnsrecord auth_email auth_key t0 t1 t2 current_ip cf_ip
         Hcfg Hip Hcf Htrue Heq.
  destruct (in_sync_cycle_run _ _ _ _ _ _ _ _ _ _ _ _ _ Hcfg Hip Hcf Htrue Heq)
    as (t & Hrun & Hquiet).
  exists t. split; [ exact Hrun | ].
  apply Hquiet; [ apply http_only_provider | reflexivity | reflexivity ].
Qed.

(** An operation of the shape
    [try: log; response = requests.<verb>(...); rest  except ...: handler]
    sends its one request whatever happens next. *)
Lemma single_request {A} p lvl msg req (rest : response -> M A) handler :
  http_only p ->
  p (Http req) = true ->
  (forall resp, quiet p (rest resp)) ->
  (forall e, match handler e with Some h => quiet p h | None => True end) ->
  forall s,
    filter p (snd (try_except (bind (log lvl msg) (fun _ => bind (http req) rest))
                              handler s)) = [Http req].
Proof.
  intros Hp Hreq Hrest Hh s.
  pose proof (http_only_log _ lvl msg Hp) as Hlog.
  unfold try_except, bind, log, emit, http.
  destruct (send req (world s)) as [[|resp] w'].
  - specialize (Hh RequestException).
    destruct (handler RequestException) as [h|].
    + specialize (Hh {| world := w'; _config := _config s |}).
      destruct (h _) as [[r2 s2] t2]. cbn [snd app] in *.
      cbn [filter]. rewrite Hlog, Hreq, Hh. reflexivity.
    + cbn [snd app filter]. rewrite Hlog, Hreq. reflexivity.
  - specialize (Hrest resp {| world := w'; _config := _config s |}).
    destruct (rest resp _) as [[[a|e] s1] t1]; cbn [snd app] in *.
    + cbn [filter]. rewrite Hlog, Hreq, Hrest. reflexivity.
    + specialize (Hh e). destruct (handler e) as [h|].
      * specialize (Hh s1). destruct (h s1) as [[r2 s2] t2]. cbn [snd app] in *.
        cbn [filter]. rewrite Hlog, Hreq, filter_app, Hrest, Hh. reflexivity.
      * cbn [snd filter]. rewrite Hlog, Hreq, Hrest. reflexivity.
Qed.

Lemma update_dns_record_puts zone_id record_id dnsrecord ip auth_email auth_key s :
  filter is_update_call
    (snd (update_dns_record zone_id record_id dnsrecord ip auth_email auth_key s))
  = [Http (update_request zone_id record_id dnsrecord ip auth_email auth_key)].
Proof.
  unfold update_dns_record. cbv zeta. unfold requests_put.
  apply single_request.
  - apply http_only_update.
  - reflexivity.
  - intros resp. pose proof http_only_update as Hp. wire Hp.
  - intros e. pose proof http_only_update as Hp. wire Hp.
Qed.

Lemma http_only_zone_lookup : http_only is_zone_lookup_call.
Proof. intros [] H; try discriminate. eauto. Qed.

Lemma get_zone_id_asks zone auth_email auth_key s :
  filter is_zone_lookup_call (snd (get_zone_id zone auth_email auth_key s))
  = [Http (zones_request zone auth_email auth_key)].
Proof.
  unfold get_zone_id. cbv zeta. unfold requests_get.
  apply single_request.
  - apply http_only_zone_lookup.
  - reflexivity.
  - intros resp. pose proof http_only_zone_lookup as Hp. wire Hp.
  - intros e. pose proof http_only_zone_lookup as Hp. wire Hp.
Qed.

(** C6. In a cycle where [get_external_ip] raises, no request goes to the
    DNS lookup endpoint and none to the provider API; the error is logged
    and the cycle returns normally to the scheduler. *)
Theorem ip_resolver_failure_is_isolated :
  forall (s s1 : state W) (cfg zone dnsrecord auth_email auth_key : json)
         (t0 t1 : list event) (e : exn),
    configured s cfg zone dnsrecord auth_email auth_key t0 ->
    get_external_ip (with_config s cfg) = (Raise e, s1, t1) ->
    let t := t0 ++ started dnsrecord :: t1 ++ [absorbed e] in
    check_and_update_dns s = (Ok tt, s1, t) /\
    filter is_dns_lookup_call t = [] /\
    filter is_provider_call t = [].
Proof.
  intros s s1 cfg zone dnsrecord auth_email auth_key t0 t1 e Hcfg Hip t. subst t.
  rewrite (cycle_configured _ _ _ _ _ _ _ Hcfg).
  unfold try_except, check_and_update_dns_try.
  rewrite (bind_raise _ _ _ _ _ _ Hip).
  unfold check_and_update_dns_except.
  rewrite (get_external_ip_raises _ _ _ _ Hip).
  unfold log, emit, absorbed. destruct Hcfg as (Hload & _).
  split; [ reflexivity | split ].
  - apply filter_nil_app.
    { eapply run_quiet; [ | exact Hload ].
      apply load_config_quiet. apply http_only_dns_lookup. }
    simpl. apply filter_nil_app; [ | reflexivity ].
    eapply run_quiet; [ | exact Hip ].
    apply get_external_ip_quiet; [ apply http_only_dns_lookup | reflexivity ].
  - apply filter_nil_app.
    { eapply run_quiet; [ | exact Hload ].
      apply load_config_quiet. apply http_only_provider. }
    simpl. apply filter_nil_app; [ | reflexivity ].
    eapply run_quiet; [ | exact Hip ].
    apply get_external_ip_quiet; [ apply http_only_provider | reflexivity ].
Qed.

(** The three ways zone resolution is said to fail do make [get_zone_id]
    raise. *)
Lemma zone_resolution_failure_modes zone auth_email auth_key s rep w' :
  send (zones_request zone auth_email auth_key) (world s) = (rep, w') ->
  (rep = TransportError \/
   (exists r fields,
       rep = Response r /\ status_ok r = true /\ body r = Some (JObj fields) /\
       (assoc "success" fields = Some (JBool false) \/
        (assoc "success" fields = Some (JBool true) /\
         assoc "result" fields = Some (JArr []))))) ->
  exists e t, get_zone_id zone auth_email auth_key s = (Raise e, with_world s w', t).
Proof.
  intros Hsend Hmode.
  unfold get_zone_id, try_except, bind, requests_get, http, log, emit.
  fold (zones_request zone auth_email auth_key). rewrite Hsend.
  destruct Hmode as [-> | (r & fields & -> & Hok & Hbody & Henv)].
  - simpl. eauto.
  - unfold raise_for_status, response_json. rewrite Hok, Hbody. simpl.
    destruct Henv as [Hs | (Hs & Hr)].
    + rewrite Hs. simpl. eauto.
    + rewrite Hs. simpl. rewrite Hr. simpl. eauto.
Qed.

(** C7. In a cycle where [get_zone_id] raises (see
    [zone_resolution_failure_modes] for transport failure, a non-success
    envelope and an empty result), neither the record lookup nor the update
    is requested; the error is logged and the cycle returns normally to the
    scheduler. *)
Theorem zone_failure_stops_the_sequence :
  forall (s s1 s2 s3 : state W) (cfg zone dnsrecord auth_email auth_key : json)
         (t0 t1 t2 t3 : list event) (current_ip : string) (cf_ip : json) (e : exn),
    configured s cfg zone dnsrecord auth_email auth_key t0 ->
    get_external_ip (with_config s cfg) = (Ok current_ip, s1, t1) ->
    get_cloudflare_dns_ip dnsrecord s1 = (Ok cf_ip, s2, t2) ->
    truthy cf_ip && py_eq_str cf_ip current_ip = false ->
    get_zone_id zone auth_email auth_key s2 = (Raise e, s3, t3) ->
    exists t,
      check_and_update_dns s = (Ok tt, s3, t ++ [absorbed e]) /\
      filter is_record_lookup_call (t ++ [absorbed e]) = [] /\
      filter is_update_call (t ++ [absorbed e]) = [].
Proof.
  intros s s1 s2 s3 cfg zone dnsrecord auth_email auth_key t0 t1 t2 t3 current_ip
         cf_ip e Hcfg Hip Hcf Hdiv Hz.
  rewrite (cycle_configured _ _ _ _ _ _ _ Hcfg).
  unfold try_except, check_and_update_dns_try.
  rewrite (bind_ok _ _ _ _ _ _ Hip).
  unfold bind at 1. unfold log at 1. unfold emit at 1.
  rewrite (bind_ok _ _ _ _ _ _ Hcf).
  unfold bind at 1. unfold log at 1. unfold emit at 1.
  rewrite Hdiv.
  unfold bind at 1. unfold log at 1. unfold emit at 1.
  rewrite (bind_raise _ _ _ _ _ _ Hz).
  unfold check_and_update_dns_except.
  rewrite (get_zone_id_raises _ _ _ _ _ _ _ Hz). unfold log, emit.
  exists (t0 ++ started dnsrecord :: t1 ++
          Log INFO [Lit "Current IP is "; Val (JStr current_ip)] :: t2 ++
          Log INFO [Lit "Cloudflare IP is "; Val cf_ip] ::
          Log WARNING [Lit "DNS record needs updating from "; Val cf_ip; Lit " to ";
                       Val (JStr current_ip)] :: t3).
  destruct Hcfg as (Hload & _).
  assert (Hq : forall p, http_only p ->
                 p (Http checkip_request) = false ->
                 p (Http (dns_query dnsrecord)) = false ->
                 p (Http (zones_request zone auth_email auth_key)) = false ->
                 filter p ((t0 ++ started dnsrecord :: t1 ++
                   Log INFO [Lit "Current IP is "; Val (JStr current_ip)] :: t2 ++
                   Log INFO [Lit "Cloudflare IP is "; Val cf_ip] ::
                   Log WARNING [Lit "DNS record needs updating from "; Val cf_ip;
                                Lit " to "; Val (JStr current_ip)] :: t3)
                   ++ [absorbed e]) = []).
  { intros p Hp H1 H2 H3.
    pose proof (http_only_log p) as Hlog.
    repeat first
      [ apply filter_nil_app
      | cbn [filter]; unfold started, absorbed; rewrite Hlog by exact Hp
      | reflexivity
      | eapply run_quiet; [ | exact Hload ]; apply load_config_quiet; exact Hp
      | eapply run_quiet; [ | exact Hip ]; apply get_external_ip_quiet; assumption
      | eapply run_quiet; [ | exact Hcf ]; apply get_cloudflare_dns_ip_quiet; assumption
      | eapply run_quiet; [ | exact Hz ]; apply get_zone_id_quiet; assumption ]. }
  split; [ | split ].
  - f_equal. same_trace.
  - apply Hq; [ apply http_only_record_lookup | reflexivity .. ].
  - apply Hq; [ apply http_only_update | reflexivity .. ].
Qed.

Lemma in_bind_left {A B} (m : M A) (k : A -> M B) s ev :
  In ev (snd (m s)) -> In ev (snd (bind m k s)).
Proof.
  unfold bind. destruct (m s) as [[[a|e] s1] t1]; cbn [snd]; auto.
  destruct (k a s1) as [[r2 s2] t2]. cbn [snd]. intros H.
  apply in_or_app. auto.
Qed.

Lemma in_bind_right {A B} (m : M A) (k : A -> M B) s a s1 t1 ev :
  m s = (Ok a, s1, t1) -> In ev (snd (k a s1)) -> In ev (snd (bind m k s)).
Proof.
  intros Hm. unfold bind. rewrite Hm.
  destruct (k a s1) as [[r2 s2] t2]. cbn [snd]. intros H.
  apply in_or_app. auto.
Qed.

Lemma in_try {A} (body : M A) handler s ev :
  In ev (snd (body s)) -> In ev (snd (try_except body handler s)).
Proof.
  unfold try_except. destruct (body s) as [[[a|e] s1] t1]; cbn [snd]; auto.
  destruct (handler e) as [h|]; auto.
  destruct (h s1) as [[r2 s2] t2]. cbn [snd]. intros H.
  apply in_or_app. auto.
Qed.

(** The divergent cycle that succeeds: what it returns, and its one
    update request. *)
Lemma divergent_cycle_run
      (s s1 s2 s3 s4 s5 : state W)
      (cfg zone dnsrecord auth_email auth_key zone_id record_id cf_ip result : json)
      (t0 t1 t2 t3 t4 t5 : list event) (current_ip : string) :
  configured s cfg zone dnsrecord auth_email auth_key t0 ->
  get_external_ip (with_config s cfg) = (Ok current_ip, s1, t1) ->
  get_cloudflare_dns_ip dnsrecord s1 = (Ok cf_ip, s2, t2) ->
  truthy cf_ip && py_eq_str cf_ip current_ip = false ->
  get_zone_id zone auth_email auth_key s2 = (Ok zone_id, s3, t3) ->
  get_dns_record_id zone_id dnsrecord auth_email auth_key s3 = (Ok record_id, s4, t4) ->
  update_dns_record zone_id record_id dnsrecord current_ip auth_email auth_key s4
    = (Ok result, s5, t5) ->
  exists t,
    check_and_update_dns s = (Ok tt, s5, t) /\
    filter is_update_call t =
    [Http (update_request zone_id record_id dnsrecord current_ip auth_email auth_key)].
Proof.
  intros Hcfg Hip Hcf Hdiv Hz Hr Hu.
  rewrite (cycle_configured _ _ _ _ _ _ _ Hcfg).
  unfold try_except, check_and_update_dns_try.
  rewrite (bind_ok _ _ _ _ _ _ Hip).
  unfold bind at 1. unfold log at 1. unfold emit at 1.
  rewrite (bind_ok _ _ _ _ _ _ Hcf).
  unfold bind at 1. unfold log at 1. unfold emit at 1.
  rewrite Hdiv.
  unfold bind at 1. unfold log at 1. unfold emit at 1.
  rewrite (bind_ok _ _ _ _ _ _ Hz).
  unfold bind at 1. unfold log at 1. unfold emit at 1.
  rewrite (bind_ok _ _ _ _ _ _ Hr).
  unfold bind at 1. unfold log at 1. unfold emit at 1.
  rewrite (bind_ok _ _ _ _ _ _ Hu).
  unfold bind, log, emit.
  eexists. split; [ reflexivity | ].
  destruct Hcfg as (Hload & _).
  pose proof (update_dns_record_puts zone_id record_id dnsrecord current_ip
                                     auth_email auth_key s4) as Hput.
  rewrite Hu in Hput. cbn [snd] in Hput.
  pose proof http_only_update as Hp.
  repeat (rewrite filter_app; cbn [filter]). unfold started. cbn [is_update_call].
  rewrite (run_quiet _ _ _ _ _ _ (load_config_quiet _ _ Hp) Hload).
  rewrite (run_quiet _ _ _ _ _ _ (get_external_ip_quiet _ Hp eq_refl) Hip).
  rewrite (run_quiet _ _ _ _ _ _ (get_cloudflare_dns_ip_quiet _ _ Hp eq_refl) Hcf).
  rewrite (run_quiet _ _ _ _ _ _ (get_zone_id_quiet _ _ _ _ Hp eq_refl) Hz).
  rewrite (run_quiet _ _ _ _ _ _ (get_dns_record_id_quiet _ _ _ _ _ Hp eq_refl) Hr).
  rewrite Hput. reflexivity.
Qed.

(** C2. In a cycle where the published IP is absent or differs from the
    external IP just fetched and the zone lookup, the record lookup and the
    update all succeed, exactly one update request is sent; its payload has
    [content] equal to the fetched external IP, [type] ["A"], [ttl] [1] and
    [proxied] [False]. *)
Theorem divergent_cycle_updates_once :
  forall (s s1 s2 s3 s4 s5 : state W)
         (cfg zone dnsrecord auth_email auth_key zone_id record_id cf_ip result : json)
         (t0 t1 t2 t3 t4 t5 : list event) (current_ip : string),
    configured s cfg zone dnsrecord auth_email auth_key t0 ->
    get_external_ip (with_config s cfg) = (Ok current_ip, s1, t1) ->
    get_cloudflare_dns_ip dnsrecord s1 = (Ok cf_ip, s2, t2) ->
    truthy cf_ip && py_eq_str cf_ip current_ip = false ->
    get_zone_id zone auth_email auth_key s2 = (Ok zone_id, s3, t3) ->
    get_dns_record_id zone_id dnsrecord auth_email auth_key s3 = (Ok record_id, s4, t4) ->
    update_dns_record zone_id record_id dnsrecord current_ip auth_email auth_key s4
      = (Ok result, s5, t5) ->
    exists t req p,
      check_and_update_dns s = (Ok tt, s5, t) /\
      filter is_update_call t = [Http req] /\
      method req = PUT /\
      payload req = Some p /\
      py_getitem p "content" = Ok (JStr current_ip) /\
      py_getitem p "type" = Ok (JStr "A") /\
      py_getitem p "ttl" = Ok (JInt 1) /\
      py_getitem p "proxied" = Ok (JBool false).
Proof.
  intros s s1 s2 s3 s4 s5 cfg zone dnsrecord auth_email auth_key zone_id record_id
         cf_ip result t0 t1 t2 t3 t4 t5 current_ip Hcfg Hip Hcf Hdiv Hz Hr Hu.
  destruct (divergent_cycle_run _ _ _ _ _ _ _ _ _ _ _ _ _ _ _ _ _ _ _ _ _ _
                                Hcfg Hip Hcf Hdiv Hz Hr Hu) as (t & Hrun & Hput).
  exists t.
  exists (update_request zone_id record_id dnsrecord current_ip auth_email auth_key).
  exists (update_payload dnsrecord current_ip).
  repeat split; assumption.
Qed.

(** ** The global [_config] *)

Lemma keeps_config_ret {A} (a : A) : keeps_config (ret a).
Proof. intros s r s' t H. inversion H. reflexivity. Qed.

Lemma keeps_config_raise {A} e : keeps_config (@raise A e).
Proof. intros s r s' t H. inversion H. reflexivity. Qed.

Lemma keeps_config_lift {A} (o : outcome A) : keeps_config (lift o).
Proof. intros s r s' t H. inversion H. reflexivity. Qed.

Lemma keeps_config_emit ev : keeps_config (emit ev).
Proof. intros s r s' t H. inversion H. reflexivity. Qed.

Lemma keeps_config_item k : keeps_config (config_item k).
Proof. intros s r s' t H. inversion H. reflexivity. Qed.

Lemma keeps_config_http req : keeps_config (http req).
Proof.
  intros s r s' t. unfold http. destruct (send req (world s)) as [rep w'].
  intros H. inversion H. reflexivity.
Qed.

Lemma keeps_config_bind {A B} (m : M A) (k : A -> M B) :
  keeps_config m -> (forall a, keeps_config (k a)) -> keeps_config (bind m k).
Proof.
  intros Hm Hk s r s' t. unfold bind.
  destruct (m s) as [[[a|e] s1] t1] eqn:Em.
  - destruct (k a s1) as [[r2 s2] t2] eqn:Ek. intros H. inversion H. subst.
    rewrite (Hk _ _ _ _ _ Ek). eapply Hm. eassumption.
  - intros H. inversion H. subst. eapply Hm. eassumption.
Qed.

Lemma keeps_config_try {A} (body : M A) handler :
  keeps_config body ->
  (forall e, match handler e with Some h => keeps_config h | None => True end) ->
  keeps_config (try_except body handler).
Proof.
  intros Hb Hh s r s' t. unfold try_except.
  destruct (body s) as [[[a|e] s1] t1] eqn:Eb.
  - intros H. inversion H. subst. eapply Hb. eassumption.
  - specialize (Hh e). destruct (handler e) as [h|].
    + destruct (h s1) as [[r2 s2] t2] eqn:Eh. intros H. inversion H. subst.
      rewrite (Hh _ _ _ _ Eh). eapply Hb. eassumption.
    + intros H. inversion H. subst. eapply Hb. eassumption.
Qed.

Ltac keeps_step :=
  first
    [ apply keeps_config_ret | apply keeps_config_raise | apply keeps_config_lift
    | apply keeps_config_emit | apply keeps_config_item | apply keeps_config_http
    | apply keeps_config_bind; [ | intros ? ]
    | apply keeps_config_try; [ | intros ? ]
    | exact I
    | match goal with
      | |- keeps_config (if ?b then _ else _) => destruct b
      | |- keeps_config (match ?x with _ => _ end) => destruct x
      | |- match (if ?b then _ else _) with _ => _ end => destruct b
      end ].

Lemma cycle_after_load_keeps_config :
  keeps_config
    (bind (config_item "zone") (fun zone =>
     bind (config_item "dnsrecord") (fun dnsrecord =>
     bind (config_item "cloudflare_auth_email") (fun auth_email =>
     bind (config_item "cloudflare_auth_key") (fun auth_key =>
     bind (log INFO [Lit "Starting DNS update check for "; Val dnsrecord]) (fun _ =>
     try_except (check_and_update_dns_try zone dnsrecord auth_email auth_key)
                check_and_update_dns_except)))))).
Proof.
  unfold check_and_update_dns_try, check_and_update_dns_except,
    get_external_ip, get_cloudflare_dns_ip, get_zone_id, get_dns_record_id,
    update_dns_record, requests_get, requests_put, raise_for_status, response_json,
    log.
  cbv zeta. repeat keeps_step.
Qed.

Lemma cycle_rebinds_config s cfg s1 t1 :
  load_config config_path s = (Ok cfg, s1, t1) ->
  exists r s' t', check_and_update_dns s = (r, s', t1 ++ t') /\ _config s' = cfg.
Proof.
  intros Hload. unfold check_and_update_dns. fold config_path.
  rewrite (bind_ok _ _ _ _ _ _ Hload).
  unfold bind at 1. unfold set_config at 1.
  pose proof cycle_after_load_keeps_config as Hk.
  specialize (Hk {| world := world s1; _config := cfg |}).
  destruct (bind (config_item "zone") _ {| world := world s1; _config := cfg |})
    as [[r s'] t'].
  exists r, s', t'. split; [ reflexivity | ].
  apply (Hk _ _ _ eq_refl).
Qed.

Lemma missing_fields_of_object required fields :
  missing_fields_of required (JObj fields) = Ok (filter (absent_from fields) required).
Proof.
  induction required as [|f rest IH]; simpl; [ reflexivity | ].
  rewrite IH. unfold absent_from. destruct (assoc f fields); reflexivity.
Qed.

Lemma load_config_missing_field path s fields f :
  path_exists path (world s) = Exists true ->
  read_json path (world s) = Loaded (JObj fields) ->
  In f required_fields ->
  assoc f fields = None ->
  load_config path s =
  (Raise (SystemExit 1), s,
   [PathExists path; FileOpen path;
    Log ERROR [Lit "Missing required fields in config: ";
               Joined ", " (filter (absent_from fields) required_fields)]]).
Proof.
  intros Hex Hread Hin Hnone.
  rewrite load_config_cases, Hex, Hread, missing_fields_of_object.
  assert (Hf : In f (filter (absent_from fields) required_fields)).
  { apply filter_In. split; [ exact Hin | ]. unfold absent_from. rewrite Hnone.
    reflexivity. }
  destruct (filter (absent_from fields) required_fields) as [|f0 l];
    [ contradiction | reflexivity ].
Qed.

(** ** Errors at the cycle boundary *)

(** C3 (as amended).  Once the cycle's configuration load has succeeded with
    a JSON object, the cycle returns normally whatever the IP resolver, the
    DNS lookup and the three provider operations do: either its [try]
    block returns, or what the block raises is an [Exception], which the
    [except] clause catches and logs as the last line of the cycle.  A
    failing configuration load is not absorbed: what [load_config] raises,
    the exit of [sys.exit(1)] included, leaves [check_and_update_dns]. *)
Theorem cycle_absorbs_collaborator_failures :
  forall (s : state W),
    (forall fields s1 t1,
        load_config config_path s = (Ok (JObj fields), s1, t1) ->
        exists zone dnsrecord auth_email auth_key s' t_try,
          configured s (JObj fields) zone dnsrecord auth_email auth_key t1 /\
          ((check_and_update_dns_try zone dnsrecord auth_email auth_key
                                     (with_config s (JObj fields))
            = (Ok tt, s', t_try) /\
            check_and_update_dns s = (Ok tt, s', t1 ++ started dnsrecord :: t_try)) \/
           (exists e,
               check_and_update_dns_try zone dnsrecord auth_email auth_key
                                        (with_config s (JObj fields))
               = (Raise e, s', t_try) /\
               is_Exception e = true /\
               check_and_update_dns s
               = (Ok tt, s', t1 ++ started dnsrecord :: t_try ++ [absorbed e])))) /\
    (forall e s1 t1,
        load_config config_path s = (Raise e, s1, t1) ->
        check_and_update_dns s = (Raise e, s1, t1)).
Proof.
  intros s. split.
  - intros fields s1 t1 Hload.
    destruct (loaded_object_configured _ _ _ _ Hload)
      as (zone & dnsrecord & auth_email & auth_key & Hcfg).
    exists zone, dnsrecord, auth_email, auth_key.
    rewrite (cycle_configured _ _ _ _ _ _ _ Hcfg).
    unfold try_except.
    destruct (check_and_update_dns_try zone dnsrecord auth_email auth_key
                                       (with_config s (JObj fields)))
      as [[[[]|e] s'] t_try] eqn:Etry.
    + exists s', t_try. split; [ exact Hcfg | ]. left. split; reflexivity.
    + exists s', t_try. split; [ exact Hcfg | ]. right. exists e.
      pose proof (try_block_raises _ _ _ _ _ _ _ _ Etry) as He.
      split; [ reflexivity | split; [ exact He | ] ].
      unfold check_and_update_dns_except. rewrite He. reflexivity.
  - intros e s1 t1 Hload. apply cycle_load_fails. exact Hload.
Qed.

(** The scheduler goes on to the next tick after a cycle that returned. *)
Lemma scheduler_continues n s s' t :
  check_and_update_dns s = (Ok tt, s', t) ->
  run_pending (S n) s = (let '(r, s'', t') := run_pending n s' in (r, s'', t ++ t')).
Proof. intros H. simpl. unfold bind at 1. rewrite H. reflexivity. Qed.

(** ** The configuration *)

(** C5 (as amended).  Every cycle loads the configuration again and rebinds
    the global [_config] to what it loaded; a load validates that the four
    fields are present, and a missing file or a missing field ends the
    process with exit status 1, at startup and in any later cycle. *)
Theorem config_is_loaded_and_validated_each_cycle :
  (forall (s s1 : state W) cfg t1,
      load_config config_path s = (Ok cfg, s1, t1) ->
      In (FileOpen config_path) t1 /\
      (forall f, In f required_fields -> py_contains f cfg = Ok true) /\
      exists r s' t', check_and_update_dns s = (r, s', t1 ++ t') /\ _config s' = cfg) /\
  (forall (s : state W) fields f,
      path_exists config_path (world s) = Exists true ->
      read_json config_path (world s) = Loaded (JObj fields) ->
      In f required_fields ->
      assoc f fields = None ->
      exists t, load_config config_path s = (Raise (SystemExit 1), s, t) /\
                check_and_update_dns s = (Raise (SystemExit 1), s, t) /\
                forall ticks, main ticks s =
                              (Raise (SystemExit 1), s,
                               Log INFO [Lit "Logging initialized"] :: t)) /\
  (forall (s : state W),
      path_exists config_path (world s) = Exists false ->
      load_config config_path s = (Raise (SystemExit 1), s, not_found_trace config_path) /\
      check_and_update_dns s = (Raise (SystemExit 1), s, not_found_trace config_path)).
Proof.
  split; [ | split ].
  - intros s s1 cfg t1 Hload. split; [ | split ].
    + revert Hload. rewrite load_config_cases.
      destruct (path_exists config_path (world s)) as [|[|]]; try discriminate.
      destruct (read_json config_path (world s)) as [e0|c];
        [ destruct e0; discriminate | ].
      destruct (missing_fields_of required_fields c) as [[|f0 l]|e]; try discriminate.
      intros H. inversion H. subst. right. left. reflexivity.
    + eapply load_config_validated. exact Hload.
    + eapply cycle_rebinds_config. exact Hload.
  - intros s fields f Hex Hread Hin Hnone.
    pose proof (load_config_missing_field _ _ _ _ Hex Hread Hin Hnone) as Hload.
    eexists. split; [ exact Hload | split ].
    + apply cycle_load_fails. exact Hload.
    + intros ticks. unfold main, setup_logging. fold config_path.
      unfold bind at 1. unfold log at 1. unfold emit at 1.
      rewrite (bind_raise _ _ _ _ _ _ Hload). reflexivity.
  - intros s Hex.
    assert (Hload : load_config config_path s
                    = (Raise (SystemExit 1), s, not_found_trace config_path))
      by (rewrite load_config_cases, Hex; reflexivity).
    split; [ exact Hload | ]. apply cycle_load_fails. exact Hload.
Qed.

(** ** Further properties: [get_external_ip] *)

(** X2. [get_external_ip] sends its one request; on a reply with a success
    status it returns [str.strip] of the body text, and on a transport failure or
    an error status it logs the error and raises the request exception
    again (it does not return a value). *)
Theorem get_external_ip_contract :
  forall (s : state W) (rep : reply) (w' : W),
    send checkip_request (world s) = (rep, w') ->
    let asked :=
      [Log DEBUG [Lit "Fetching external IP address from checkip.amazonaws.com"];
       Http checkip_request] in
    (forall r,
        rep = Response r -> status_ok r = true ->
        get_external_ip s =
        (Ok (py_strip (text r)), with_world s w',
         asked ++ [Log DEBUG [Lit "External IP retrieved: ";
                              Val (JStr (py_strip (text r)))]])) /\
    (rep = TransportError \/ (exists r, rep = Response r /\ status_ok r = false) ->
     get_external_ip s =
     (Raise RequestException, with_world s w',
      asked ++ [Log ERROR [Lit "Error getting external IP: ";
                           ExnStr RequestException]])).
Proof.
  intros s rep w' Hsend asked. subst asked.
  unfold get_external_ip, try_except, bind, requests_get, http, log, emit.
  fold checkip_request. rewrite Hsend. unfold with_world, raise_for_status.
  split.
  - intros r -> Hok. rewrite Hok. reflexivity.
  - intros [-> | (r & -> & Hr)]; [ reflexivity | ].
    rewrite Hr. reflexivity.
Qed.

(** ** Further properties: [load_config] *)

Lemma missing_fields_of_total fields config :
  is_scalar config = false -> exists l, missing_fields_of fields config = Ok l.
Proof.
  intros Hc. induction fields as [|f rest (l & IH)]; simpl; [ eauto | ].
  rewrite IH. destruct config; try discriminate; simpl; eauto.
Qed.

Lemma missing_fields_of_scalar config :
  is_scalar config = true ->
  missing_fields_of required_fields config = Raise TypeError.
Proof. destruct config; try discriminate; reflexivity. Qed.

(** X3. [load_config] returns exactly when the file exists, is read as
    JSON and every required field is [in] the value; it then returns the
    value as read, changes nothing, and logs one debug line. *)
Theorem load_config_succeeds_iff :
  forall (path : string) (s s' : state W) (cfg : json) (t : list event),
    load_config path s = (Ok cfg, s', t) <->
    (path_exists path (world s) = Exists true /\
     read_json path (world s) = Loaded cfg /\
     missing_fields_of required_fields cfg = Ok [] /\
     s' = s /\
     t = [PathExists path; FileOpen path;
          Log DEBUG [Lit "Configuration loaded successfully from "; Val (JStr path)]]).
Proof.
  intros path s s' cfg t. rewrite load_config_cases. split.
  - destruct (path_exists path (world s)) as [|[|]]; try discriminate.
    destruct (read_json path (world s)) as [e0|c]; [ destruct e0; discriminate | ].
    destruct (missing_fields_of required_fields c) as [[|f l]|e] eqn:Em;
      try discriminate.
    intros H. inversion H. subst. auto.
  - intros (Hex & Hread & Hm & -> & ->). rewrite Hex, Hread, Hm. reflexivity.
Qed.

(** X4. What [load_config] raises: the [SystemExit(1)] of its own
    [sys.exit(1)], always after exactly one ERROR line (file not found,
    invalid JSON, missing fields); or, with no line logged, the [OSError]
    of [exists], or what [open] or [json.load] raised when that is not a
    [json.JSONDecodeError] (an [OSError], a [UnicodeDecodeError], ...), or
    a [TypeError] when the file holds a JSON scalar ([null], a boolean, a
    number).  In every case the program state is unchanged. *)
Theorem load_config_failures :
  forall (path : string) (s s' : state W) (e : exn) (t : list event),
    load_config path s = (Raise e, s', t) ->
    s' = s /\
    ((e = SystemExit 1 /\ List.length (filter is_error_log t) = 1%nat /\
      (path_exists path (world s) = Exists false \/
       read_json path (world s) = ReadRaises JSONDecodeError \/
       exists cfg f l,
         read_json path (world s) = Loaded cfg /\
         missing_fields_of required_fields cfg = Ok (f :: l))) \/
     (e = OSError /\ filter is_error_log t = [] /\
      path_exists path (world s) = ExistsRaises) \/
     (e <> JSONDecodeError /\ filter is_error_log t = [] /\
      read_json path (world s) = ReadRaises e) \/
     (e = TypeError /\ filter is_error_log t = [] /\
      exists cfg, read_json path (world s) = Loaded cfg /\ is_scalar cfg = true)).
Proof.
  intros path s s' e t. rewrite load_config_cases.
  destruct (path_exists path (world s)) as [|[|]].
  - intros H. inversion H. subst. split; [ reflexivity | ]. right. left. auto.
  - destruct (read_json path (world s)) as [e0|c] eqn:Er.
    + destruct e0; intros H; inversion H; subst; (split; [ reflexivity | ]);
        try (right; right; left;
             split; [ discriminate | split; reflexivity ]).
      left. auto.
    + destruct (missing_fields_of required_fields c) as [[|f l]|e0] eqn:Em;
        intros H; inversion H; subst; (split; [ reflexivity | ]).
      * left. split; [ reflexivity | split; [ reflexivity | ] ].
        right. right. exists c, f, l. auto.
      * right. right. right. repeat split. exists c. split; [ reflexivity | ].
        destruct (is_scalar c) eqn:Es; [ reflexivity | ].
        destruct (missing_fields_of_total required_fields c Es) as (l & Hl).
        rewrite Hl in Em. discriminate.
  - intros H. inversion H. subst. split; [ reflexivity | ]. left. auto.
Qed.

(** X5. A configuration file that holds a JSON scalar does not end in the
    clean exit: [load_config] raises [TypeError] without a log line, and so
    do the cycle and [main]. *)
Theorem scalar_config_is_a_type_error :
  forall (s : state W) (cfg : json),
    path_exists config_path (world s) = Exists true ->
    read_json config_path (world s) = Loaded cfg ->
    is_scalar cfg = true ->
    load_config config_path s
    = (Raise TypeError, s, [PathExists config_path; FileOpen config_path]) /\
    check_and_update_dns s
    = (Raise TypeError, s, [PathExists config_path; FileOpen config_path]) /\
    forall ticks,
      main ticks s
      = (Raise TypeError, s,
         [Log INFO [Lit "Logging initialized"];
          PathExists config_path; FileOpen config_path]).
Proof.
  intros s cfg Hex Hread Hs.
  assert (Hload : load_config config_path s
                  = (Raise TypeError, s, [PathExists config_path; FileOpen config_path])).
  { rewrite load_config_cases, Hex, Hread, (missing_fields_of_scalar _ Hs).
    reflexivity. }
  split; [ exact Hload | split ].
  - apply cycle_load_fails. exact Hload.
  - intros ticks. unfold main, setup_logging. fold config_path.
    unfold bind at 1. unfold log at 1. unfold emit at 1.
    rewrite (bind_raise _ _ _ _ _ _ Hload). reflexivity.
Qed.

(** X6. For a file that holds a JSON object, [load_config] succeeds when
    all four fields are keys of it; otherwise it exits with status 1 and
    its ERROR line lists exactly the required fields that are not keys, in
    the order zone, dnsrecord, cloudflare_auth_email, cloudflare_auth_key. *)
Theorem object_config_validation :
  forall (path : string) (s : state W) (fields : list (string * json)),
    path_exists path (world s) = Exists true ->
    read_json path (world s) = Loaded (JObj fields) ->
    let missing := filter (absent_from fields) required_fields in
    (forall f, In f missing <-> In f required_fields /\ assoc f fields = None) /\
    (missing = [] ->
     load_config path s =
     (Ok (JObj fields), s,
      [PathExists path; FileOpen path;
       Log DEBUG [Lit "Configuration loaded successfully from "; Val (JStr path)]])) /\
    (missing <> [] ->
     load_config path s =
     (Raise (SystemExit 1), s,
      [PathExists path; FileOpen path;
       Log ERROR [Lit "Missing required fields in config: "; Joined ", " missing]])).
Proof.
  intros path s fields Hex Hread missing. split; [ | split ].
  - intros f. unfold missing. rewrite filter_In. unfold absent_from.
    destruct (assoc f fields); split; intros [H1 H2]; split; auto; discriminate.
  - intros Hm. rewrite load_config_cases, Hex, Hread, missing_fields_of_object.
    fold missing. rewrite Hm. reflexivity.
  - intros Hm. rewrite load_config_cases, Hex, Hread, missing_fields_of_object.
    fold missing. destruct missing as [|f l]; [ contradiction | reflexivity ].
Qed.

(** ** Further properties: what goes on the wire *)

Lemma http_only_is_http : http_only is_http.
Proof. intros [] H; try discriminate. eauto. Qed.

Lemma http_only_leaks : http_only leaks_credentials.
Proof. intros [] H; try discriminate. eauto. Qed.

Lemma http_only_unbounded : http_only unbounded_wait.
Proof. intros [] H; try discriminate. eauto. Qed.

Lemma update_dns_record_quiet p zone_id record_id dnsrecord ip auth_email auth_key :
  http_only p ->
  p (Http (update_request zone_id record_id dnsrecord ip auth_email auth_key)) = false ->
  quiet p (update_dns_record zone_id record_id dnsrecord ip auth_email auth_key).
Proof. intros Hp H. unfold update_dns_record. wire Hp. Qed.

Lemma check_and_update_dns_quiet p :
  http_only p -> rejects_all_requests p -> quiet p check_and_update_dns.
Proof.
  intros Hp (H1 & H2 & H3 & H4 & H5).
  unfold check_and_update_dns, check_and_update_dns_try, check_and_update_dns_except.
  repeat first
    [ apply load_config_quiet; exact Hp
    | apply get_external_ip_quiet; [ exact Hp | exact H1 ]
    | apply get_cloudflare_dns_ip_quiet; [ exact Hp | apply H2 ]
    | apply get_zone_id_quiet; [ exact Hp | apply H3 ]
    | apply get_dns_record_id_quiet; [ exact Hp | apply H4 ]
    | apply update_dns_record_quiet; [ exact Hp | apply H5 ]
    | apply quiet_emit; apply (http_only_log _ _ _ Hp)
    | unfold log; quiet_step ].
Qed.

Lemma run_pending_quiet p ticks :
  http_only p -> rejects_all_requests p -> quiet p (run_pending ticks).
Proof.
  intros Hp Hr. induction ticks as [|n IH]; simpl.
  - apply quiet_ret.
  - apply quiet_bind; [ apply check_and_update_dns_quiet; assumption | intros _; exact IH ].
Qed.

Lemma main_quiet p ticks :
  http_only p -> rejects_all_requests p ->
  p (SignalHandler "SIGINT") = false -> p (SignalHandler "SIGTERM") = false ->
  quiet p (main ticks).
Proof.
  intros Hp Hr Hs1 Hs2. unfold main, setup_logging.
  repeat first
    [ apply load_config_quiet; exact Hp
    | apply check_and_update_dns_quiet; assumption
    | apply run_pending_quiet; assumption
    | apply quiet_emit; first [ apply (http_only_log _ _ _ Hp) | assumption ]
    | unfold log; quiet_step ].
Qed.

Lemma get_external_ip_requests s :
  filter is_http (snd (get_external_ip s)) = [Http checkip_request].
Proof.
  pose proof http_only_is_http as Hp. unfold get_external_ip, requests_get.
  apply single_request; [ exact Hp | reflexivity | intros resp; wire Hp
                        | intros e; wire Hp ].
Qed.

Lemma get_cloudflare_dns_ip_requests d s :
  filter is_http (snd (get_cloudflare_dns_ip d s)) = [Http (dns_query d)].
Proof.
  pose proof http_only_is_http as Hp. unfold get_cloudflare_dns_ip, requests_get.
  apply single_request; [ exact Hp | reflexivity | intros resp; wire Hp
                        | intros e; wire Hp ].
Qed.

Lemma get_zone_id_requests z e k s :
  filter is_http (snd (get_zone_id z e k s)) = [Http (zones_request z e k)].
Proof.
  pose proof http_only_is_http as Hp. unfold get_zone_id. cbv zeta.
  unfold requests_get.
  apply single_request; [ exact Hp | reflexivity | intros resp; wire Hp
                        | intros e0; wire Hp ].
Qed.

Lemma get_dns_record_id_requests zid d e k s :
  filter is_http (snd (get_dns_record_id zid d e k s))
  = [Http (records_request zid d e k)].
Proof.
  pose proof http_only_is_http as Hp. unfold get_dns_record_id. cbv zeta.
  unfold requests_get.
  apply single_request; [ exact Hp | reflexivity | intros resp; wire Hp
                        | intros e0; wire Hp ].
Qed.

Lemma update_dns_record_requests zid rid d ip e k s :
  filter is_http (snd (update_dns_record zid rid d ip e k s))
  = [Http (update_request zid rid d ip e k)].
Proof.
  pose proof http_only_is_http as Hp. unfold update_dns_record. cbv zeta.
  unfold requests_put.
  apply single_request; [ exact Hp | reflexivity | intros resp; wire Hp
                        | intros e0; wire Hp ].
Qed.

(** X7. No retry inside a call: whatever the network does, each of the
    five network operations sends exactly one request, the one it builds
    from its arguments. *)
Theorem one_request_per_call :
  forall (s : state W),
    filter is_http (snd (get_external_ip s)) = [Http checkip_request] /\
    (forall d,
        filter is_http (snd (get_cloudflare_dns_ip d s)) = [Http (dns_query d)]) /\
    (forall z e k,
        filter is_http (snd (get_zone_id z e k s)) = [Http (zones_request z e k)]) /\
    (forall zid d e k,
        filter is_http (snd (get_dns_record_id zid d e k s))
        = [Http (records_request zid d e k)]) /\
    (forall zid rid d ip e k,
        filter is_http (snd (update_dns_record zid rid d ip e k s))
        = [Http (update_request zid rid d ip e k)]).
Proof.
  intros s. repeat split; intros.
  - apply get_external_ip_requests.
  - apply get_cloudflare_dns_ip_requests.
  - apply get_zone_id_requests.
  - apply get_dns_record_id_requests.
  - apply update_dns_record_requests.
Qed.

(** X8. The credentials stay with the provider: in a whole run of [main],
    and so in every cycle, no request to a host other than the provider's
    API carries an [X-Auth-Email] or [X-Auth-Key] header. *)
Theorem credentials_only_go_to_the_provider :
  forall (ticks : nat) (s : state W),
    filter leaks_credentials (snd (main ticks s)) = [] /\
    filter leaks_credentials (snd (check_and_update_dns s)) = [].
Proof.
  assert (Hr : rejects_all_requests leaks_credentials)
    by (repeat split; intros; reflexivity).
  intros ticks s. split.
  - apply main_quiet; [ apply http_only_leaks | exact Hr | reflexivity | reflexivity ].
  - apply check_and_update_dns_quiet; [ apply http_only_leaks | exact Hr ].
Qed.

(** X9. Every request sent in a run of [main], and so in every cycle, asks
    for the ten second timeout. *)
Theorem every_request_has_the_timeout :
  forall (ticks : nat) (s : state W),
    filter unbounded_wait (snd (main ticks s)) = [] /\
    filter unbounded_wait (snd (check_and_update_dns s)) = [].
Proof.
  assert (Hr : rejects_all_requests unbounded_wait)
    by (repeat split; intros; reflexivity).
  intros ticks s. split.
  - apply main_quiet; [ apply http_only_unbounded | exact Hr | reflexivity | reflexivity ].
  - apply check_and_update_dns_quiet; [ apply http_only_unbounded | exact Hr ].
Qed.

Lemma filter_bind {A B} p (m : M A) (k : A -> M B) s :
  filter p (snd (bind m k s)) =
  match m s with
  | (Ok a, s1, t1) => filter p t1 ++ filter p (snd (k a s1))
  | (Raise _, _, t1) => filter p t1
  end.
Proof.
  unfold bind. destruct (m s) as [[[a|e] s1] t1]; [ | reflexivity ].
  destruct (k a s1) as [[r2 s2] t2]. cbn [snd]. apply filter_app.
Qed.

Lemma filter_try_quiet_handler {A} p (body : M A) handler s :
  (forall e, match handler e with Some h => quiet p h | None => True end) ->
  filter p (snd (try_except body handler s)) = filter p (snd (body s)).
Proof.
  intros Hh. unfold try_except. destruct (body s) as [[[a|e] s1] t1]; [ reflexivity | ].
  specialize (Hh e). destruct (handler e) as [h|]; [ | reflexivity ].
  specialize (Hh s1). destruct (h s1) as [[r2 s2] t2]. cbn [snd] in *.
  rewrite filter_app, Hh. apply app_nil_r.
Qed.

Lemma except_clause_quiet p e :
  (forall l m, p (Log l m) = false) ->
  match check_and_update_dns_except e with Some h => quiet p h | None => True end.
Proof.
  intros Hl. unfold check_and_update_dns_except.
  destruct (is_Exception e); [ | exact I ]. apply quiet_emit. apply Hl.
Qed.

(** The requests of the [try] block, in order. *)
Lemma try_block_requests zone dnsrecord auth_email auth_key s :
  exists ip zone_id record_id,
    initial_segment
      (filter is_http
              (snd (check_and_update_dns_try zone dnsrecord auth_email auth_key s)))
      [Http checkip_request;
       Http (dns_query dnsrecord);
       Http (zones_request zone auth_email auth_key);
       Http (records_request zone_id dnsrecord auth_email auth_key);
       Http (update_request zone_id record_id dnsrecord ip auth_email auth_key)].
Proof.
  unfold check_and_update_dns_try.
  rewrite filter_bind.
  pose proof (get_external_ip_requests s) as E1.
  destruct (get_external_ip s) as [[[ip|e1] s1] t1]; cbn [snd] in E1; rewrite E1.
  2:{ exists EmptyString, JNull, JNull. eexists. reflexivity. }
  exists ip.
  rewrite filter_bind. cbn [log emit filter is_http app].
  rewrite filter_bind.
  pose proof (get_cloudflare_dns_ip_requests dnsrecord s1) as E2.
  destruct (get_cloudflare_dns_ip dnsrecord s1) as [[[cf_ip|e2] s2] t2];
    cbn [snd] in E2; rewrite E2.
  2:{ exists JNull, JNull. eexists. reflexivity. }
  rewrite filter_bind. cbn [log emit filter is_http app].
  destruct (truthy cf_ip && py_eq_str cf_ip ip).
  { exists JNull, JNull. eexists. reflexivity. }
  rewrite filter_bind. cbn [log emit filter is_http app].
  rewrite filter_bind.
  pose proof (get_zone_id_requests zone auth_email auth_key s2) as E3.
  destruct (get_zone_id zone auth_email auth_key s2) as [[[zone_id|e3] s3] t3];
    cbn [snd] in E3; rewrite E3.
  2:{ exists JNull, JNull. eexists. reflexivity. }
  exists zone_id.
  rewrite filter_bind. cbn [log emit filter is_http app].
  rewrite filter_bind.
  pose proof (get_dns_record_id_requests zone_id dnsrecord auth_email auth_key s3) as E4.
  destruct (get_dns_record_id zone_id dnsrecord auth_email auth_key s3)
    as [[[record_id|e4] s4] t4]; cbn [snd] in E4; rewrite E4.
  2:{ exists JNull. eexists. reflexivity. }
  exists record_id.
  rewrite filter_bind. cbn [log emit filter is_http app].
  rewrite filter_bind.
  pose proof (update_dns_record_requests zone_id record_id dnsrecord ip
                                         auth_email auth_key s4) as E5.
  destruct (update_dns_record zone_id record_id dnsrecord ip auth_email auth_key s4)
    as [[[result|e5] s5] t5]; cbn [snd] in E5; rewrite E5.
  2:{ exists []. reflexivity. }
  rewrite filter_bind. cbn [log emit filter is_http app snd].
  exists []. reflexivity.
Qed.

Lemma try_block_requests_exact zone dnsrecord auth_email auth_key s :
  filter is_http (snd (check_and_update_dns_try zone dnsrecord auth_email auth_key s))
  = cycle_requests zone dnsrecord auth_email auth_key s.
Proof.
  unfold check_and_update_dns_try, cycle_requests.
  rewrite filter_bind.
  pose proof (get_external_ip_requests s) as E1.
  destruct (get_external_ip s) as [[[ip|e1] s1] t1]; cbn [snd] in E1; rewrite E1;
    [ | reflexivity ].
  cbn [app]. f_equal.
  rewrite filter_bind. cbn [log emit filter is_http app].
  rewrite filter_bind.
  pose proof (get_cloudflare_dns_ip_requests dnsrecord s1) as E2.
  destruct (get_cloudflare_dns_ip dnsrecord s1) as [[[cf_ip|e2] s2] t2];
    cbn [snd] in E2; rewrite E2; [ | reflexivity ].
  cbn [app]. f_equal.
  rewrite filter_bind. cbn [log emit filter is_http app].
  destruct (truthy cf_ip && py_eq_str cf_ip ip); [ reflexivity | ].
  rewrite filter_bind. cbn [log emit filter is_http app].
  rewrite filter_bind.
  pose proof (get_zone_id_requests zone auth_email auth_key s2) as E3.
  destruct (get_zone_id zone auth_email auth_key s2) as [[[zone_id|e3] s3] t3];
    cbn [snd] in E3; rewrite E3; [ | reflexivity ].
  cbn [app]. f_equal.
  rewrite filter_bind. cbn [log emit filter is_http app].
  rewrite filter_bind.
  pose proof (get_dns_record_id_requests zone_id dnsrecord auth_email auth_key s3) as E4.
  destruct (get_dns_record_id zone_id dnsrecord auth_email auth_key s3)
    as [[[record_id|e4] s4] t4]; cbn [snd] in E4; rewrite E4; [ | reflexivity ].
  cbn [app]. f_equal.
  rewrite filter_bind. cbn [log emit filter is_http app].
  rewrite filter_bind.
  pose proof (update_dns_record_requests zone_id record_id dnsrecord ip
                                         auth_email auth_key s4) as E5.
  destruct (update_dns_record zone_id record_id dnsrecord ip auth_email auth_key s4)
    as [[[result|e5] s5] t5]; cbn [snd] in E5; rewrite E5; [ | reflexivity ].
  rewrite filter_bind. cbn [log emit filter is_http app snd].
  reflexivity.
Qed.

(** X10. The requests of a cycle come in one fixed order, stop at the
    first failure, and carry the values obtained earlier in the same cycle:
    what a configured cycle sends is the IP service request, then, while
    each operation returns, the DNS lookup, the zone listing (unless the
    record is in sync), the record listing with the zone id that
    [get_zone_id] returned, and the update with that zone id, the record id
    that [get_dns_record_id] returned and the IP that [get_external_ip]
    returned.  So there are at most five requests, and an update only after
    both listings.  A cycle whose configuration load fails sends nothing. *)
Theorem cycle_request_sequence :
  forall (s : state W),
    (forall cfg zone dnsrecord auth_email auth_key t0,
        configured s cfg zone dnsrecord auth_email auth_key t0 ->
        filter is_http (snd (check_and_update_dns s))
        = cycle_requests zone dnsrecord auth_email auth_key (with_config s cfg) /\
        exists ip zone_id record_id,
          initial_segment
            (filter is_http (snd (check_and_update_dns s)))
            [Http checkip_request;
             Http (dns_query dnsrecord);
             Http (zones_request zone auth_email auth_key);
             Http (records_request zone_id dnsrecord auth_email auth_key);
             Http (update_request zone_id record_id dnsrecord ip auth_email auth_key)]) /\
    (forall e s1 t1,
        load_config config_path s = (Raise e, s1, t1) ->
        filter is_http (snd (check_and_update_dns s)) = []).
Proof.
  intros s. pose proof http_only_is_http as Hp. split.
  - intros cfg zone dnsrecord auth_email auth_key t0 Hcfg.
    assert (Hreq : filter is_http (snd (check_and_update_dns s))
                   = filter is_http
                            (snd (check_and_update_dns_try zone dnsrecord auth_email
                                                           auth_key (with_config s cfg)))).
    { rewrite (cycle_configured _ _ _ _ _ _ _ Hcfg).
      pose proof (filter_try_quiet_handler is_http
                    (check_and_update_dns_try zone dnsrecord auth_email auth_key)
                    check_and_update_dns_except (with_config s cfg)
                    (fun e => except_clause_quiet is_http e (fun _ _ => eq_refl)))
        as Htry.
      destruct (try_except _ _ (with_config s cfg)) as [[r s'] t]. cbn [snd] in *.
      destruct Hcfg as (Hload & _).
      rewrite filter_app.
      rewrite (run_quiet _ _ _ _ _ _ (load_config_quiet _ _ Hp) Hload).
      cbn [app filter started is_http]. exact Htry. }
    rewrite Hreq. split.
    + apply try_block_requests_exact.
    + apply try_block_requests.
  - intros e s1 t1 Hload. rewrite (cycle_load_fails _ _ _ _ Hload). cbn [snd].
    eapply run_quiet; [ | exact Hload ]. apply load_config_quiet. exact Hp.
Qed.

(** ** Further properties: failures later in the sequence *)

Ltac says_nothing f :=
  unfold f, requests_get, requests_put, raise_for_status, response_json,
    sys_exit, log;
  cbv zeta; repeat quiet_step.

Lemma load_config_no_success path : quiet is_success_log (load_config path).
Proof. says_nothing load_config. Qed.

Lemma get_external_ip_no_success : quiet is_success_log get_external_ip.
Proof. says_nothing get_external_ip. Qed.

Lemma get_cloudflare_dns_ip_no_success d :
  quiet is_success_log (get_cloudflare_dns_ip d).
Proof. says_nothing get_cloudflare_dns_ip. Qed.

Lemma get_zone_id_no_success z e k : quiet is_success_log (get_zone_id z e k).
Proof. says_nothing get_zone_id. Qed.

Lemma get_dns_record_id_no_success zid d e k :
  quiet is_success_log (get_dns_record_id zid d e k).
Proof. says_nothing get_dns_record_id. Qed.

Lemma update_dns_record_no_success zid rid d ip e k :
  quiet is_success_log (update_dns_record zid rid d ip e k).
Proof. says_nothing update_dns_record. Qed.

(** X11. In a cycle where [get_dns_record_id] raises, no update is
    requested; the error is logged by the cycle and the cycle returns
    normally. *)
Theorem record_failure_stops_the_sequence :
  forall (s s1 s2 s3 s4 : state W)
         (cfg zone dnsrecord auth_email auth_key zone_id cf_ip : json)
         (t0 t1 t2 t3 t4 : list event) (current_ip : string) (e : exn),
    configured s cfg zone dnsrecord auth_email auth_key t0 ->
    get_external_ip (with_config s cfg) = (Ok current_ip, s1, t1) ->
    get_cloudflare_dns_ip dnsrecord s1 = (Ok cf_ip, s2, t2) ->
    truthy cf_ip && py_eq_str cf_ip current_ip = false ->
    get_zone_id zone auth_email auth_key s2 = (Ok zone_id, s3, t3) ->
    get_dns_record_id zone_id dnsrecord auth_email auth_key s3 = (Raise e, s4, t4) ->
    exists t,
      check_and_update_dns s = (Ok tt, s4, t ++ [absorbed e]) /\
      filter is_update_call (t ++ [absorbed e]) = [] /\
      filter is_success_log (t ++ [absorbed e]) = [].
Proof.
  intros s s1 s2 s3 s4 cfg zone dnsrecord auth_email auth_key zone_id cf_ip
         t0 t1 t2 t3 t4 current_ip e Hcfg Hip Hcf Hdiv Hz Hr.
  rewrite (cycle_configured _ _ _ _ _ _ _ Hcfg).
  unfold try_except, check_and_update_dns_try.
  rewrite (bind_ok _ _ _ _ _ _ Hip).
  unfold bind at 1. unfold log at 1. unfold emit at 1.
  rewrite (bind_ok _ _ _ _ _ _ Hcf).
  unfold bind at 1. unfold log at 1. unfold emit at 1.
  rewrite Hdiv.
  unfold bind at 1. unfold log at 1. unfold emit at 1.
  rewrite (bind_ok _ _ _ _ _ _ Hz).
  unfold bind at 1. unfold log at 1. unfold emit at 1.
  rewrite (bind_raise _ _ _ _ _ _ Hr).
  unfold check_and_update_dns_except.
  rewrite (get_dns_record_id_raises _ _ _ _ _ _ _ _ Hr). unfold log, emit.
  exists (t0 ++ started dnsrecord :: t1 ++
          Log INFO [Lit "Current IP is "; Val (JStr current_ip)] :: t2 ++
          Log INFO [Lit "Cloudflare IP is "; Val cf_ip] ::
          Log WARNING [Lit "DNS record needs updating from "; Val cf_ip; Lit " to ";
               Val (JStr current_ip)] :: t3 ++
          Log INFO [Lit "Zone ID for "; Val zone; Lit " is "; Val zone_id] :: t4).
  split; [ f_equal; same_trace | ].
  destruct Hcfg as (Hload & _). pose proof http_only_update as Hp.
  split.
  - repeat (rewrite filter_app; cbn [filter]). unfold started, absorbed.
    cbn [is_update_call].
    rewrite (run_quiet _ _ _ _ _ _ (load_config_quiet _ _ Hp) Hload).
    rewrite (run_quiet _ _ _ _ _ _ (get_external_ip_quiet _ Hp eq_refl) Hip).
    rewrite (run_quiet _ _ _ _ _ _ (get_cloudflare_dns_ip_quiet _ _ Hp eq_refl) Hcf).
    rewrite (run_quiet _ _ _ _ _ _ (get_zone_id_quiet _ _ _ _ Hp eq_refl) Hz).
    rewrite (run_quiet _ _ _ _ _ _ (get_dns_record_id_quiet _ _ _ _ _ Hp eq_refl) Hr).
    reflexivity.
  - repeat (rewrite filter_app; cbn [filter]). unfold started, absorbed.
    cbn [is_success_log].
    rewrite (run_quiet _ _ _ _ _ _ (load_config_no_success _) Hload).
    rewrite (run_quiet _ _ _ _ _ _ get_external_ip_no_success Hip).
    rewrite (run_quiet _ _ _ _ _ _ (get_cloudflare_dns_ip_no_success _) Hcf).
    rewrite (run_quiet _ _ _ _ _ _ (get_zone_id_no_success _ _ _) Hz).
    rewrite (run_quiet _ _ _ _ _ _ (get_dns_record_id_no_success _ _ _ _) Hr).
    reflexivity.
Qed.

(** X12. In a cycle where [update_dns_record] raises (after its one PUT),
    the cycle returns normally with the error logged, and no SUCCESS line
    is logged: "Successfully updated" is never claimed for a failed
    update. *)
Theorem update_failure_is_not_reported_as_success :
  forall (s s1 s2 s3 s4 s5 : state W)
         (cfg zone dnsrecord auth_email auth_key zone_id record_id cf_ip : json)
         (t0 t1 t2 t3 t4 t5 : list event) (current_ip : string) (e : exn),
    configured s cfg zone dnsrecord auth_email auth_key t0 ->
    get_external_ip (with_config s cfg) = (Ok current_ip, s1, t1) ->
    get_cloudflare_dns_ip dnsrecord s1 = (Ok cf_ip, s2, t2) ->
    truthy cf_ip && py_eq_str cf_ip current_ip = false ->
    get_zone_id zone auth_email auth_key s2 = (Ok zone_id, s3, t3) ->
    get_dns_record_id zone_id dnsrecord auth_email auth_key s3 = (Ok record_id, s4, t4) ->
    update_dns_record zone_id record_id dnsrecord current_ip auth_email auth_key s4
      = (Raise e, s5, t5) ->
    exists t,
      check_and_update_dns s = (Ok tt, s5, t ++ [absorbed e]) /\
      filter is_success_log (t ++ [absorbed e]) = [] /\
      filter is_update_call (t ++ [absorbed e]) =
      [Http (update_request zone_id record_id dnsrecord current_ip auth_email auth_key)].
Proof.
  intros s s1 s2 s3 s4 s5 cfg zone dnsrecord auth_email auth_key zone_id record_id
         cf_ip t0 t1 t2 t3 t4 t5 current_ip e Hcfg Hip Hcf Hdiv Hz Hr Hu.
  rewrite (cycle_configured _ _ _ _ _ _ _ Hcfg).
  unfold try_except, check_and_update_dns_try.
  rewrite (bind_ok _ _ _ _ _ _ Hip).
  unfold bind at 1. unfold log at 1. unfold emit at 1.
  rewrite (bind_ok _ _ _ _ _ _ Hcf).
  unfold bind at 1. unfold log at 1. unfold emit at 1.
  rewrite Hdiv.
  unfold bind at 1. unfold log at 1. unfold emit at 1.
  rewrite (bind_ok _ _ _ _ _ _ Hz).
  unfold bind at 1. unfold log at 1. unfold emit at 1.
  rewrite (bind_ok _ _ _ _ _ _ Hr).
  unfold bind at 1. unfold log at 1. unfold emit at 1.
  rewrite (bind_raise _ _ _ _ _ _ Hu).
  unfold check_and_update_dns_except.
  rewrite (update_dns_record_raises _ _ _ _ _ _ _ _ _ _ Hu). unfold log, emit.
  exists (t0 ++ started dnsrecord :: t1 ++
          Log INFO [Lit "Current IP is "; Val (JStr current_ip)] :: t2 ++
          Log INFO [Lit "Cloudflare IP is "; Val cf_ip] ::
          Log WARNING [Lit "DNS record needs updating from "; Val cf_ip; Lit " to ";
               Val (JStr current_ip)] :: t3 ++
          Log INFO [Lit "Zone ID for "; Val zone; Lit " is "; Val zone_id] :: t4 ++
          Log INFO [Lit "DNS record ID for "; Val dnsrecord; Lit " is "; Val record_id] :: t5).
  split; [ f_equal; same_trace | ].
  destruct Hcfg as (Hload & _). pose proof http_only_update as Hp.
  split.
  - repeat (rewrite filter_app; cbn [filter]). unfold started, absorbed.
    cbn [is_success_log].
    rewrite (run_quiet _ _ _ _ _ _ (load_config_no_success _) Hload).
    rewrite (run_quiet _ _ _ _ _ _ get_external_ip_no_success Hip).
    rewrite (run_quiet _ _ _ _ _ _ (get_cloudflare_dns_ip_no_success _) Hcf).
    rewrite (run_quiet _ _ _ _ _ _ (get_zone_id_no_success _ _ _) Hz).
    rewrite (run_quiet _ _ _ _ _ _ (get_dns_record_id_no_success _ _ _ _) Hr).
    rewrite (run_quiet _ _ _ _ _ _ (update_dns_record_no_success _ _ _ _ _ _) Hu).
    reflexivity.
  - pose proof (update_dns_record_puts zone_id record_id dnsrecord current_ip
                                       auth_email auth_key s4) as Hput.
    rewrite Hu in Hput. cbn [snd] in Hput.
    repeat (rewrite filter_app; cbn [filter]). unfold started, absorbed.
    cbn [is_update_call].
    rewrite (run_quiet _ _ _ _ _ _ (load_config_quiet _ _ Hp) Hload).
    rewrite (run_quiet _ _ _ _ _ _ (get_external_ip_quiet _ Hp eq_refl) Hip).
    rewrite (run_quiet _ _ _ _ _ _ (get_cloudflare_dns_ip_quiet _ _ Hp eq_refl) Hcf).
    rewrite (run_quiet _ _ _ _ _ _ (get_zone_id_quiet _ _ _ _ Hp eq_refl) Hz).
    rewrite (run_quiet _ _ _ _ _ _ (get_dns_record_id_quiet _ _ _ _ _ Hp eq_refl) Hr).
    rewrite Hput. reflexivity.
Qed.

(** ** Further properties: replies of the provider and of the resolver *)

(** X13. A provider reply whose envelope does not report success (the
    [success] field false, null or absent) makes each of the three provider
    operations log one ERROR line with the [errors] value and raise an
    [Exception] that carries it; the operation's own
    [except requests.RequestException] clause does not handle it. *)
Theorem provider_error_envelope :
  forall (s : state W) (r : response) (w' : W) (fields : list (string * json))
         (success errors : json),
    status_ok r = true ->
    body r = Some (JObj fields) ->
    py_get (JObj fields) "success" = Ok success ->
    truthy success = false ->
    py_get (JObj fields) "errors" = Ok errors ->
    (forall z e k,
        send (zones_request z e k) (world s) = (Response r, w') ->
        get_zone_id z e k s =
        (Raise (Exception [Lit "Cloudflare API error: "; Val errors]), with_world s w',
         [Log DEBUG [Lit "Fetching zone ID for "; Val z];
          Http (zones_request z e k);
          Log ERROR [Lit "Cloudflare API returned error: "; Val errors]])) /\
    (forall zid d e k,
        send (records_request zid d e k) (world s) = (Response r, w') ->
        get_dns_record_id zid d e k s =
        (Raise (Exception [Lit "Cloudflare API error: "; Val errors]), with_world s w',
         [Log DEBUG [Lit "Fetching DNS record ID for "; Val d];
          Http (records_request zid d e k);
          Log ERROR [Lit "Cloudflare API returned error: "; Val errors]])) /\
    (forall zid rid d ip e k,
        send (update_request zid rid d ip e k) (world s) = (Response r, w') ->
        update_dns_record zid rid d ip e k s =
        (Raise (Exception [Lit "Failed to update DNS record: "; Val errors]),
         with_world s w',
         [Log DEBUG [Lit "Updating DNS record "; Val d; Lit " to "; Val (JStr ip)];
          Http (update_request zid rid d ip e k);
          Log ERROR [Lit "Failed to update DNS record: "; Val errors]])).
Proof.
  intros s r w' fields success errors Hok Hbody Hs Hfalse He.
  split; [ | split ].
  - intros z e k Hsend.
    unfold get_zone_id, try_except, bind, requests_get, http, log, emit.
    fold (zones_request z e k). rewrite Hsend.
    unfold raise_for_status, response_json, with_world, lift, raise, ret.
    rewrite Hok, Hbody. cbn [fst snd app]. rewrite Hs. cbn [app].
    rewrite Hfalse. cbn [negb]. rewrite He. reflexivity.
  - intros zid d e k Hsend.
    unfold get_dns_record_id, try_except, bind, requests_get, http, log, emit.
    fold (records_request zid d e k). rewrite Hsend.
    unfold raise_for_status, response_json, with_world, lift, raise, ret.
    rewrite Hok, Hbody. cbn [fst snd app]. rewrite Hs. cbn [app].
    rewrite Hfalse. cbn [negb]. rewrite He. reflexivity.
  - intros zid rid d ip e k Hsend.
    unfold update_dns_record, try_except, bind, requests_put, http, log, emit.
    fold (update_payload d ip). fold (update_request zid rid d ip e k). rewrite Hsend.
    unfold raise_for_status, response_json, with_world, lift, raise, ret.
    rewrite Hok, Hbody. cbn [fst snd app]. rewrite Hs. cbn [app].
    rewrite Hfalse. cbn [negb]. rewrite He. reflexivity.
Qed.

(** X14. A successful envelope whose [result] is empty, null or absent
    makes [get_zone_id] raise "Zone '...' not found" and [get_dns_record_id]
    raise "DNS record '...' not found", each after one ERROR line with the
    same text. *)
Theorem empty_result_is_not_found :
  forall (s : state W) (r : response) (w' : W) (fields : list (string * json))
         (success result : json),
    status_ok r = true ->
    body r = Some (JObj fields) ->
    py_get (JObj fields) "success" = Ok success ->
    truthy success = true ->
    py_get (JObj fields) "result" = Ok result ->
    truthy result = false ->
    (forall z e k,
        send (zones_request z e k) (world s) = (Response r, w') ->
        get_zone_id z e k s =
        (Raise (Exception [Lit "Zone '"; Val z; Lit "' not found"]), with_world s w',
         [Log DEBUG [Lit "Fetching zone ID for "; Val z];
          Http (zones_request z e k);
          Log ERROR [Lit "Zone '"; Val z; Lit "' not found"]])) /\
    (forall zid d e k,
        send (records_request zid d e k) (world s) = (Response r, w') ->
        get_dns_record_id zid d e k s =
        (Raise (Exception [Lit "DNS record '"; Val d; Lit "' not found"]),
         with_world s w',
         [Log DEBUG [Lit "Fetching DNS record ID for "; Val d];
          Http (records_request zid d e k);
          Log ERROR [Lit "DNS record '"; Val d; Lit "' not found"]])).
Proof.
  intros s r w' fields success result Hok Hbody Hs Htrue Hr Hfalse.
  split.
  - intros z e k Hsend.
    unfold get_zone_id, try_except, bind, requests_get, http, log, emit.
    fold (zones_request z e k). rewrite Hsend.
    unfold raise_for_status, response_json, with_world, lift, raise, ret.
    rewrite Hok, Hbody. cbn [fst snd app]. rewrite Hs. cbn [app].
    rewrite Htrue. cbn [negb app]. rewrite Hr. cbn [app]. rewrite Hfalse.
    reflexivity.
  - intros zid d e k Hsend.
    unfold get_dns_record_id, try_except, bind, requests_get, http, log, emit.
    fold (records_request zid d e k). rewrite Hsend.
    unfold raise_for_status, response_json, with_world, lift, raise, ret.
    rewrite Hok, Hbody. cbn [fst snd app]. rewrite Hs. cbn [app].
    rewrite Htrue. cbn [negb app]. rewrite Hr. cbn [app]. rewrite Hfalse.
    reflexivity.
Qed.

(** X15. [update_dns_record] looks at the [success] field only: on a
    reply with a success status whose envelope reports success it returns
    the whole decoded body, whatever else the body holds. *)
Theorem update_returns_the_reply :
  forall (s : state W) (r : response) (w' : W) (fields : list (string * json))
         (success : json) zid rid d ip e k,
    send (update_request zid rid d ip e k) (world s) = (Response r, w') ->
    status_ok r = true ->
    body r = Some (JObj fields) ->
    py_get (JObj fields) "success" = Ok success ->
    truthy success = true ->
    update_dns_record zid rid d ip e k s =
    (Ok (JObj fields), with_world s w',
     [Log DEBUG [Lit "Updating DNS record "; Val d; Lit " to "; Val (JStr ip)];
      Http (update_request zid rid d ip e k);
      Log DEBUG [Lit "DNS record updated successfully"]]).
Proof.
  intros s r w' fields success zid rid d ip e k Hsend Hok Hbody Hs Htrue.
  unfold update_dns_record, try_except, bind, requests_put, http, log, emit.
  fold (update_payload d ip). fold (update_request zid rid d ip e k). rewrite Hsend.
  unfold raise_for_status, response_json, with_world, lift, raise, ret.
  rewrite Hok, Hbody. cbn [fst snd app]. rewrite Hs. cbn [app].
  rewrite Htrue. reflexivity.
Qed.

Lemma py_getitem_failure v k e :
  py_getitem v k = Raise e -> e = KeyError \/ e = TypeError.
Proof.
  destruct v; simpl; intros H; try (inversion H; right; reflexivity).
  destruct (assoc k fields); inversion H. left. reflexivity.
Qed.

(** X16. The lookup does raise on a reply it cannot read: a JSON body that
    is not an object raises [AttributeError], and a non-empty [Answer]
    array whose first element has no [data] field (or is not an object)
    raises [KeyError] (or [TypeError]); no warning is logged and no value
    is returned. *)
Theorem get_cloudflare_dns_ip_unreadable_reply :
  forall (dnsrecord : json) (s : state W) (r : response) (w' : W),
    send (dns_query dnsrecord) (world s) = (Response r, w') ->
    status_ok r = true ->
    let asked := [Log DEBUG [Lit "Querying Cloudflare DNS for "; Val dnsrecord];
                  Http (dns_query dnsrecord)] in
    (forall v,
        body r = Some v -> is_object v = false ->
        get_cloudflare_dns_ip dnsrecord s = (Raise AttributeError, with_world s w', asked)) /\
    (forall fields first rest e,
        body r = Some (JObj fields) ->
        assoc "Answer" fields = Some (JArr (first :: rest)) ->
        py_getitem first "data" = Raise e ->
        (e = KeyError \/ e = TypeError) /\
        get_cloudflare_dns_ip dnsrecord s = (Raise e, with_world s w', asked)).
Proof.
  intros dnsrecord s r w' Hsend Hok asked. subst asked.
  unfold get_cloudflare_dns_ip, try_except, bind, requests_get, http, log, emit.
  fold (dns_query dnsrecord). rewrite Hsend.
  unfold raise_for_status, response_json, with_world, lift, raise, ret.
  rewrite Hok. split.
  - intros v Hbody Hv. rewrite Hbody. destruct v; try discriminate; reflexivity.
  - intros fields first rest e Hbody Hans Hdata.
    pose proof (py_getitem_failure _ _ _ Hdata) as He. split; [ exact He | ].
    rewrite Hbody. cbn [fst snd app py_get py_getitem]. rewrite Hans.
    cbn [truthy app py_getitem0]. rewrite Hdata.
    destruct He as [-> | ->]; reflexivity.
Qed.

(** X17. When the lookup raises in a cycle, the cycle does not go on to
    the update: the error is logged by the cycle, the cycle returns
    normally, and no request goes to the provider API.  (Only a lookup that
    returns, with a value or with [None], can lead to an update.) *)
Theorem lookup_failure_aborts_the_cycle :
  forall (s s1 s2 : state W) (cfg zone dnsrecord auth_email auth_key : json)
         (t0 t1 t2 : list event) (current_ip : string) (e : exn),
    configured s cfg zone dnsrecord auth_email auth_key t0 ->
    get_external_ip (with_config s cfg) = (Ok current_ip, s1, t1) ->
    get_cloudflare_dns_ip dnsrecord s1 = (Raise e, s2, t2) ->
    exists t,
      check_and_update_dns s = (Ok tt, s2, t ++ [absorbed e]) /\
      filter is_provider_call (t ++ [absorbed e]) = [].
Proof.
  intros s s1 s2 cfg zone dnsrecord auth_email auth_key t0 t1 t2 current_ip e
         Hcfg Hip Hcf.
  rewrite (cycle_configured _ _ _ _ _ _ _ Hcfg).
  unfold try_except, check_and_update_dns_try.
  rewrite (bind_ok _ _ _ _ _ _ Hip).
  unfold bind at 1. unfold log at 1. unfold emit at 1.
  rewrite (bind_raise _ _ _ _ _ _ Hcf).
  unfold check_and_update_dns_except.
  rewrite (get_cloudflare_dns_ip_raises _ _ _ _ _ Hcf). unfold log, emit.
  exists (t0 ++ started dnsrecord :: t1 ++
          Log INFO [Lit "Current IP is "; Val (JStr current_ip)] :: t2).
  split; [ f_equal; same_trace | ].
  destruct Hcfg as (Hload & _). pose proof http_only_provider as Hp.
  repeat (rewrite filter_app; cbn [filter]). unfold started, absorbed.
  cbn [is_provider_call].
  rewrite (run_quiet _ _ _ _ _ _ (load_config_quiet _ _ Hp) Hload).
  rewrite (run_quiet _ _ _ _ _ _ (get_external_ip_quiet _ Hp eq_refl) Hip).
  rewrite (run_quiet _ _ _ _ _ _ (get_cloudflare_dns_ip_quiet _ _ Hp eq_refl) Hcf).
  reflexivity.
Qed.

(** ** Further properties: [main] *)






(** X19. A configuration value that passes the validation without being
    an object (a string that contains the four names, a list that holds
    them) is returned by [load_config], and the first [_config[...]] then
    raises [TypeError]: out of the cycle, before any request is sent, and
    out of [main], after the signal handlers are registered. *)
Theorem non_object_config_is_a_type_error :
  forall (s s1 : state W) (cfg : json) (t1 : list event),
    load_config config_path s = (Ok cfg, s1, t1) ->
    is_object cfg = false ->
    check_and_update_dns s = (Raise TypeError, with_config s cfg, t1) /\
    forall ticks,
      main ticks s =
      (Raise TypeError, with_config s cfg,
       Log INFO [Lit "Logging initialized"] :: t1 ++
       [SignalHandler "SIGINT"; SignalHandler "SIGTERM"]).
Proof.
  intros s s1 cfg t1 Hload Hobj.
  pose proof (load_config_state _ _ _ _ _ Hload). subst s1.
  assert (Hitem : forall k, py_getitem cfg k = Raise TypeError)
    by (intros k; destruct cfg; try discriminate; reflexivity).
  split.
  - unfold check_and_update_dns. fold config_path.
    rewrite (bind_ok _ _ _ _ _ _ Hload).
    unfold bind, set_config, config_item. cbn [_config world]. rewrite Hitem.
    unfold with_config. rewrite ?app_nil_r. reflexivity.
  - intros ticks. unfold main, setup_logging. fold config_path.
    unfold bind at 1. unfold log at 1. unfold emit at 1.
    rewrite (bind_ok _ _ _ _ _ _ Hload).
    unfold bind, set_config, config_item, emit. cbn [_config world]. rewrite Hitem.
    unfold with_config. reflexivity.
Qed.

(** ** The branch the cycle takes *)

Lemma quiet_at {A} p (m : M A) s : quiet p m -> filter p (snd (m s)) = [].
Proof. intros H. apply H. Qed.

Lemma load_config_no_change path : quiet is_no_change_log (load_config path).
Proof. says_nothing load_config. Qed.

Lemma get_external_ip_no_change : quiet is_no_change_log get_external_ip.
Proof. says_nothing get_external_ip. Qed.

Lemma get_cloudflare_dns_ip_no_change d :
  quiet is_no_change_log (get_cloudflare_dns_ip d).
Proof. says_nothing get_cloudflare_dns_ip. Qed.

(** A cycle that finds the test [cf_ip and cf_ip == current_ip] false never
    logs "no changes needed". *)
Lemma divergent_cycle_never_says_no_change
      (s s1 s2 : state W) (cfg zone dnsrecord auth_email auth_key : json)
      (t0 t1 t2 : list event) (current_ip : string) (cf_ip : json) :
  configured s cfg zone dnsrecord auth_email auth_key t0 ->
  get_external_ip (with_config s cfg) = (Ok current_ip, s1, t1) ->
  get_cloudflare_dns_ip dnsrecord s1 = (Ok cf_ip, s2, t2) ->
  truthy cf_ip && py_eq_str cf_ip current_ip = false ->
  filter is_no_change_log (snd (check_and_update_dns s)) = [].
Proof.
  intros Hcfg Hip Hcf Hdiv.
  rewrite (cycle_configured _ _ _ _ _ _ _ Hcfg).
  assert (Htry : filter is_no_change_log
                   (snd (try_except
                           (check_and_update_dns_try zone dnsrecord auth_email auth_key)
                           check_and_update_dns_except (with_config s cfg))) = []).
  { rewrite filter_try_quiet_handler.
    2:{ intros e. unfold check_and_update_dns_except.
        destruct (is_Exception e); [ | exact I ]. apply quiet_emit. reflexivity. }
    unfold check_and_update_dns_try.
    rewrite filter_bind, Hip.
    rewrite (run_quiet _ _ _ _ _ _ get_external_ip_no_change Hip). cbn [app].
    rewrite filter_bind. cbn [log emit filter is_no_change_log app].
    rewrite filter_bind, Hcf.
    rewrite (run_quiet _ _ _ _ _ _ (get_cloudflare_dns_ip_no_change _) Hcf). cbn [app].
    rewrite filter_bind. cbn [log emit filter is_no_change_log app].
    rewrite Hdiv.
    apply quiet_at.
    unfold get_zone_id, get_dns_record_id, update_dns_record, requests_get,
      requests_put, raise_for_status, response_json, log.
    cbv zeta. repeat quiet_step. }
  destruct (try_except _ _ (with_config s cfg)) as [[r s'] t]. cbn [snd] in *.
  destruct Hcfg as (Hload & _).
  rewrite filter_app, (run_quiet _ _ _ _ _ _ (load_config_no_change _) Hload).
  cbn [app filter started is_no_change_log]. exact Htry.
Qed.

(** C9. Whatever the DNS lookup returns, the cycle returns normally, and
    the no-op branch requires the published IP to be true in Python's
    sense and equal to the external IP: when it is false (the empty
    string, [None]) or differs, the cycle logs that the record needs
    updating, sends the zone listing request and does not log "no changes
    needed"; and the cycle logs "no changes needed" only for a published
    IP that is true and equal.  In particular, when the lookup returns the
    empty string the cycle takes the update branch whatever the external IP
    is, the empty string included. *)
Theorem empty_published_ip_is_divergent :
  forall (s s1 s2 : state W) (cfg zone dnsrecord auth_email auth_key : json)
         (t0 t1 t2 : list event) (current_ip : string) (cf_ip : json),
    configured s cfg zone dnsrecord auth_email auth_key t0 ->
    get_external_ip (with_config s cfg) = (Ok current_ip, s1, t1) ->
    get_cloudflare_dns_ip dnsrecord s1 = (Ok cf_ip, s2, t2) ->
    exists s' t,
      check_and_update_dns s = (Ok tt, s', t) /\
      (cf_ip = JStr EmptyString ->
       In (needs_updating (JStr EmptyString) current_ip) t /\
       In (Http (zones_request zone auth_email auth_key)) t) /\
      (truthy cf_ip = false \/ cf_ip <> JStr current_ip ->
       In (needs_updating cf_ip current_ip) t /\
       In (Http (zones_request zone auth_email auth_key)) t /\
       ~ In (no_change dnsrecord current_ip) t) /\
      (In (no_change dnsrecord current_ip) t ->
       truthy cf_ip = true /\ cf_ip = JStr current_ip).
Proof.
  intros s s1 s2 cfg zone dnsrecord auth_email auth_key t0 t1 t2 current_ip cf_ip
         Hcfg Hip Hcf.
  pose proof (divergent_cycle_never_says_no_change
                _ _ _ _ _ _ _ _ _ _ _ _ _ Hcfg Hip Hcf) as Hquiet.
  rewrite (cycle_configured _ _ _ _ _ _ _ Hcfg) in *.
  destruct (guarded_cycle_returns zone dnsrecord auth_email auth_key (with_config s cfg))
    as (s' & t & Hrun).
  rewrite Hrun in *. cbn [snd] in Hquiet.
  exists s'. eexists. split; [ reflexivity | ].
  assert (Hin : forall ev,
             In ev (snd (check_and_update_dns_try zone dnsrecord auth_email auth_key
                                                  (with_config s cfg))) ->
             In ev (t0 ++ started dnsrecord :: t)).
  { intros ev Hev. apply in_or_app. right. right.
    change t with (snd (Ok tt, s', t)). rewrite <- Hrun.
    apply in_try. exact Hev. }
  assert (Hsilent : truthy cf_ip && py_eq_str cf_ip current_ip = false ->
                    ~ In (no_change dnsrecord current_ip) (t0 ++ started dnsrecord :: t)).
  { intros Hdiv Hsaid. specialize (Hquiet Hdiv).
    assert (H : In (no_change dnsrecord current_ip)
                   (filter is_no_change_log (t0 ++ started dnsrecord :: t)))
      by (apply filter_In; split; [ exact Hsaid | reflexivity ]).
    rewrite Hquiet in H. contradiction. }
  assert (Hupd : truthy cf_ip && py_eq_str cf_ip current_ip = false ->
                 In (needs_updating cf_ip current_ip) (t0 ++ started dnsrecord :: t) /\
                 In (Http (zones_request zone auth_email auth_key))
                    (t0 ++ started dnsrecord :: t)).
  { intros Hdiv. split.
    + apply Hin. unfold check_and_update_dns_try.
      eapply in_bind_right; [ exact Hip | ].
      eapply in_bind_right; [ reflexivity | ].
      eapply in_bind_right; [ exact Hcf | ].
      eapply in_bind_right; [ reflexivity | ].
      rewrite Hdiv.
      apply in_bind_left. left. reflexivity.
    + apply Hin. unfold check_and_update_dns_try.
      eapply in_bind_right; [ exact Hip | ].
      eapply in_bind_right; [ reflexivity | ].
      eapply in_bind_right; [ exact Hcf | ].
      eapply in_bind_right; [ reflexivity | ].
      rewrite Hdiv.
      eapply in_bind_right; [ reflexivity | ].
      apply in_bind_left.
      pose proof (get_zone_id_asks zone auth_email auth_key s2) as Hask.
      assert (H : In (Http (zones_request zone auth_email auth_key))
                     (filter is_zone_lookup_call
                             (snd (get_zone_id zone auth_email auth_key s2))))
        by (rewrite Hask; left; reflexivity).
      apply filter_In in H. destruct H as [H _]. exact H. }
  split; [ | split ].
  - intros ->. apply Hupd. reflexivity.
  - intros Hnot.
    assert (Hdiv : truthy cf_ip && py_eq_str cf_ip current_ip = false).
    { destruct Hnot as [Hf | Hne]; [ rewrite Hf; reflexivity | ].
      apply andb_false_iff. right.
      destruct cf_ip; try reflexivity. simpl.
      apply String.eqb_neq. intros Heq. apply Hne. rewrite Heq. reflexivity. }
    destruct (Hupd Hdiv) as [Hwarn Hzone].
    split; [ exact Hwarn | split; [ exact Hzone | exact (Hsilent Hdiv) ] ].
  - intros Hsaid.
    destruct (truthy cf_ip && py_eq_str cf_ip current_ip) eqn:Hcond.
    + apply andb_prop in Hcond. destruct Hcond as [Ht He].
      split; [ exact Ht | ].
      destruct cf_ip; try discriminate. simpl in He.
      apply String.eqb_eq in He. subst. reflexivity.
    + exfalso. exact (Hsilent eq_refl Hsaid).
Qed.

End Program.

(** ** The theorems at work on the stub world *)

Module Examples.

Import Stub.

Local Abbreviation cycle :=
  (check_and_update_dns Stub.send Stub.path_exists Stub.read_json true strip).

Example truthy_values :
  map truthy [JNull; JStr EmptyString; JStr "1.2.3.4"; JArr []; JArr [JNull]; JInt 0]
  = [false; false; true; false; true; false].
Proof. reflexivity. Qed.

Example contains_by_type :
  (py_contains "zone" good_config, py_contains "zone" text_config,
   py_contains "zone" (JArr [JStr "zone"]), py_contains "zone" (JInt 7))
  = (Ok true, Ok true, Ok true, Raise TypeError).
Proof. reflexivity. Qed.

Example strip_ip :
  strip (String " " ("1.2.3.4" ++ String (ascii_of_nat 10) EmptyString))%string
  = "1.2.3.4".
Proof. reflexivity. Qed.

(** Scenario: external IP = "1.2.3.4", published IP = "1.2.3.4". *)
Lemma in_sync_cycle_witness :
  exists t,
    cycle in_sync =
    (Ok tt, with_config in_sync good_config,
     t ++ [Log SUCCESS [Val name; Lit " is currently set to ";
                        Val (JStr "1.2.3.4"); Lit "; no changes needed"]]) /\
    filter is_provider_call t = [].
Proof.
  eapply (in_sync_cycle_makes_no_provider_call
            Stub.send Stub.path_exists Stub.read_json true strip in_sync
            _ _ good_config (JStr "example.com") name
            (JStr "me@example.com") (JStr "k3y") _ _ _ "1.2.3.4" (JStr "1.2.3.4")).
  - unfold configured. repeat split; reflexivity.
  - reflexivity.
  - reflexivity.
  - reflexivity.
  - reflexivity.
Defined.

(** Scenario: external IP = "5.6.7.8", published IP = "1.2.3.4". *)
Lemma divergent_cycle_witness :
  exists t req p,
    cycle divergent =
    (Ok tt, {| world := store (JStr "5.6.7.8") (healthy "5.6.7.8" (JStr "1.2.3.4"));
               _config := good_config |}, t) /\
    filter is_update_call t = [Http req] /\
    method req = PUT /\
    payload req = Some p /\
    py_getitem p "content" = Ok (JStr "5.6.7.8") /\
    py_getitem p "type" = Ok (JStr "A") /\
    py_getitem p "ttl" = Ok (JInt 1) /\
    py_getitem p "proxied" = Ok (JBool false).
Proof.
  eapply (divergent_cycle_updates_once
            Stub.send Stub.path_exists Stub.read_json true strip divergent
            _ _ _ _ _ good_config (JStr "example.com") name
            (JStr "me@example.com") (JStr "k3y") (JStr "z1") (JStr "r1")
            (JStr "1.2.3.4") _ _ _ _ _ _ _ "5.6.7.8").
  - unfold configured. repeat split; reflexivity.
  - reflexivity.
  - reflexivity.
  - reflexivity.
  - reflexivity.
  - reflexivity.
  - reflexivity.
Defined.

(** The lookup on the stub: an answer, a miss, and a resolver that is
    down. *)
Lemma get_cloudflare_dns_ip_witness :
  (exists t, get_cloudflare_dns_ip Stub.send true name in_sync
             = (Ok (JStr "1.2.3.4"), in_sync, t)) /\
  (exists t, get_cloudflare_dns_ip Stub.send true name unpublished
             = (Ok JNull, unpublished, t)) /\
  (exists t, get_cloudflare_dns_ip Stub.send true name resolver_down
             = (Ok JNull, resolver_down, t)).
Proof.
  split; [ | split ]; eexists.
  - eapply (proj2 (proj2 (get_cloudflare_dns_ip_contract
                            Stub.send true name in_sync _ _ eq_refl)));
      reflexivity.
  - eapply (proj1 (proj2 (get_cloudflare_dns_ip_contract
                            Stub.send true name unpublished _ _ eq_refl)));
      try reflexivity.
    left. reflexivity.
  - eapply (proj1 (get_cloudflare_dns_ip_contract
                     Stub.send true name resolver_down _ _ eq_refl)).
    left. reflexivity.
Defined.

(** Two zones and two records are listed: the first of each is taken. *)
Lemma resolution_witness :
  (exists t, get_zone_id Stub.send true (JStr "example.com") (JStr "me@example.com")
                         (JStr "k3y") divergent
             = (Ok (JStr "z1"), divergent, t)) /\
  (exists t, get_dns_record_id Stub.send true (JStr "z1") name (JStr "me@example.com")
                               (JStr "k3y") divergent
             = (Ok (JStr "r1"), divergent, t)).
Proof.
  split; eexists.
  - eapply (proj1 (resolution_takes_first_of_many
                     Stub.send true divergent
                     {| status_ok := true; text := EmptyString;
                        body := Some (JObj [("success", JBool true); ("errors", JArr []);
                                            ("result", JArr [JObj [("id", JStr "z1")];
                                                             JObj [("id", JStr "z2")]])]) |}
                     _ _ _ _ _ _ _ eq_refl eq_refl eq_refl eq_refl eq_refl eq_refl)).
    reflexivity.
  - eapply (proj2 (resolution_takes_first_of_many
                     Stub.send true divergent
                     {| status_ok := true; text := EmptyString;
                        body := Some (JObj [("success", JBool true); ("errors", JArr []);
                                            ("result", JArr [JObj [("id", JStr "r1")];
                                                             JObj [("id", JStr "r2")]])]) |}
                     _ _ _ _ _ _ _ eq_refl eq_refl eq_refl eq_refl eq_refl eq_refl)).
    reflexivity.
Defined.


(** The IP resolver is unreachable. *)
Lemma ip_resolver_failure_witness :
  exists t,
    cycle offline = (Ok tt, with_config offline good_config, t) /\
    filter is_dns_lookup_call t = [] /\
    filter is_provider_call t = [].
Proof.
  eexists.
  eapply (ip_resolver_failure_is_isolated
            Stub.send Stub.path_exists Stub.read_json true strip offline
            _ good_config (JStr "example.com") name
            (JStr "me@example.com") (JStr "k3y") _ _ RequestException).
  - unfold configured. repeat split; reflexivity.
  - reflexivity.
Defined.

(** Scenario: the zone listing returns zero results. *)
Lemma zone_failure_witness :
  exists t e,
    cycle no_zone = (Ok tt, with_config no_zone good_config, t ++ [absorbed e]) /\
    filter is_record_lookup_call (t ++ [absorbed e]) = [] /\
    filter is_update_call (t ++ [absorbed e]) = [].
Proof.
  destruct (zone_failure_stops_the_sequence
              Stub.send Stub.path_exists Stub.read_json true strip no_zone
              (with_config no_zone good_config) (with_config no_zone good_config)
              (with_config no_zone good_config)
              good_config (JStr "example.com") name
              (JStr "me@example.com") (JStr "k3y")
              [PathExists config_path; FileOpen config_path;
               Log DEBUG [Lit "Configuration loaded successfully from ";
                          Val (JStr config_path)]]
              [Log DEBUG [Lit "Fetching external IP address from checkip.amazonaws.com"];
               Http checkip_request;
               Log DEBUG [Lit "External IP retrieved: "; Val (JStr "5.6.7.8")]]
              [Log DEBUG [Lit "Querying Cloudflare DNS for "; Val name];
               Http (dns_query name);
               Log DEBUG [Lit "Cloudflare DNS returned: "; Val (JStr "1.2.3.4")]]
              [Log DEBUG [Lit "Fetching zone ID for "; Val (JStr "example.com")];
               Http (zones_request (JStr "example.com") (JStr "me@example.com")
                                   (JStr "k3y"));
               Log ERROR [Lit "Zone '"; Val (JStr "example.com"); Lit "' not found"]]
              "5.6.7.8" (JStr "1.2.3.4")
              (Exception [Lit "Zone '"; Val (JStr "example.com"); Lit "' not found"]))
    as (t & H).
  - unfold configured. repeat split; reflexivity.
  - reflexivity.
  - reflexivity.
  - reflexivity.
  - reflexivity.
  - exists t. eexists. exact H.
Defined.

(** External IP and published IP both the empty string. *)
Lemma empty_published_ip_witness :
  exists s' t,
    cycle both_empty = (Ok tt, s', t) /\
    In (needs_updating (JStr EmptyString) EmptyString) t /\
    In (Http (zones_request (JStr "example.com") (JStr "me@example.com") (JStr "k3y"))) t /\
    ~ In (no_change name EmptyString) t.
Proof.
  destruct (empty_published_ip_is_divergent
              Stub.send Stub.path_exists Stub.read_json true strip both_empty
              (with_config both_empty good_config) (with_config both_empty good_config)
              good_config (JStr "example.com") name
              (JStr "me@example.com") (JStr "k3y")
              [PathExists config_path; FileOpen config_path;
               Log DEBUG [Lit "Configuration loaded successfully from ";
                          Val (JStr config_path)]]
              [Log DEBUG [Lit "Fetching external IP address from checkip.amazonaws.com"];
               Http checkip_request;
               Log DEBUG [Lit "External IP retrieved: "; Val (JStr EmptyString)]]
              [Log DEBUG [Lit "Querying Cloudflare DNS for "; Val name];
               Http (dns_query name);
               Log DEBUG [Lit "Cloudflare DNS returned: "; Val (JStr EmptyString)]]
              EmptyString (JStr EmptyString))
    as (s' & t & Hrun & Hdiv & _ & Hnoop).
  - unfold configured. repeat split; reflexivity.
  - reflexivity.
  - reflexivity.
  - destruct (Hdiv eq_refl) as (Hwarn & Hzone).
    exists s', t. repeat split; try assumption.
    intros Hsaid. destruct (Hnoop Hsaid) as (Htrue & _). discriminate Htrue.
Defined.

(** C1, as stated, fails when the lookup returns the empty string and the
    external IP is the empty string too: the published IP is there and
    equal, and yet the cycle sends the zone listing, the record listing and
    the update. *)
Lemma empty_in_sync_cycle_calls_the_provider :
  fst (fst (get_external_ip Stub.send true strip (with_config both_empty good_config)))
  = Ok EmptyString /\
  fst (fst (get_cloudflare_dns_ip Stub.send true name
                                  (with_config both_empty good_config)))
  = Ok (JStr EmptyString) /\
  py_eq_str (JStr EmptyString) EmptyString = true /\
  fst (fst (cycle both_empty)) = Ok tt /\
  filter is_provider_call (snd (cycle both_empty)) =
  [Http (zones_request (JStr "example.com") (JStr "me@example.com") (JStr "k3y"));
   Http (records_request (JStr "z1") name (JStr "me@example.com") (JStr "k3y"));
   Http (update_request (JStr "z1") (JStr "r1") name EmptyString
                        (JStr "me@example.com") (JStr "k3y"))].
Proof. repeat split; reflexivity. Qed.

(** C3, as stated, fails: with the configuration file gone the cycle ends
    in [SystemExit(1)], and with a file that holds a JSON string it ends in
    a [TypeError]; neither is absorbed. *)
Lemma cycle_propagates_config_failures :
  cycle no_file = (Raise (SystemExit 1), no_file, not_found_trace config_path) /\
  ~ (exists s' t, cycle no_file = (Ok tt, s', t)) /\
  fst (fst (cycle text_file)) = Raise TypeError.
Proof.
  split; [ reflexivity | split; [ | reflexivity ] ].
  intros (s' & t & H). discriminate H.
Qed.

(** A cycle whose zone lookup fails returns, by one of the two ways; a
    cycle whose configuration lacks two fields exits. *)
Lemma cycle_absorbs_witness :
  (exists zone dnsrecord auth_email auth_key s' t_try,
      configured Stub.path_exists Stub.read_json no_zone good_config
                 zone dnsrecord auth_email auth_key
                 [PathExists config_path; FileOpen config_path;
                  Log DEBUG [Lit "Configuration loaded successfully from ";
                             Val (JStr config_path)]] /\
      ((check_and_update_dns_try Stub.send true strip zone dnsrecord auth_email auth_key
                                 (with_config no_zone good_config)
        = (Ok tt, s', t_try) /\
        cycle no_zone
        = (Ok tt, s',
           [PathExists config_path; FileOpen config_path;
            Log DEBUG [Lit "Configuration loaded successfully from ";
                       Val (JStr config_path)]] ++ started dnsrecord :: t_try)) \/
       (exists e,
           check_and_update_dns_try Stub.send true strip zone dnsrecord auth_email
                                    auth_key (with_config no_zone good_config)
           = (Raise e, s', t_try) /\
           is_Exception e = true /\
           cycle no_zone
           = (Ok tt, s',
              [PathExists config_path; FileOpen config_path;
               Log DEBUG [Lit "Configuration loaded successfully from ";
                          Val (JStr config_path)]]
              ++ started dnsrecord :: t_try ++ [absorbed e])))) /\
  cycle incomplete_file =
  (Raise (SystemExit 1), incomplete_file,
   [PathExists config_path; FileOpen config_path;
    Log ERROR [Lit "Missing required fields in config: ";
               Joined ", " ["cloudflare_auth_email"; "cloudflare_auth_key"]]]).
Proof.
  split.
  - apply (proj1 (cycle_absorbs_collaborator_failures
                    Stub.send Stub.path_exists Stub.read_json true strip no_zone)
                 [("zone", JStr "example.com");
                  ("dnsrecord", JStr "home.example.com");
                  ("cloudflare_auth_email", JStr "me@example.com");
                  ("cloudflare_auth_key", JStr "k3y")]
                 no_zone).
    reflexivity.
  - eapply (proj2 (cycle_absorbs_collaborator_failures
                     Stub.send Stub.path_exists Stub.read_json true strip
                     incomplete_file)).
    reflexivity.
Defined.

(** C5, as stated, fails: a run of [main] that sees one scheduled tick has
    opened the configuration file three times (once at startup, once in
    each of the two cycles); a cycle assigns the global; and a file whose
    four fields are empty strings is accepted. *)
Lemma config_is_reloaded_and_blank_fields_pass :
  List.length (filter is_config_load
            (snd (main Stub.send Stub.path_exists Stub.read_json true strip 1 in_sync)))
  = 3%nat /\
  _config in_sync = JNull /\
  _config (snd (fst (cycle in_sync))) = good_config /\
  load_config Stub.path_exists Stub.read_json config_path blank_file =
  (Ok blank_config, blank_file,
   [PathExists config_path; FileOpen config_path;
    Log DEBUG [Lit "Configuration loaded successfully from "; Val (JStr config_path)]]).
Proof. repeat split; reflexivity. Qed.

(** The cycle rebinds the global, and exits on an incomplete or absent
    file. *)
Lemma config_witness :
  (exists r s' t', cycle in_sync = (r, s', t') /\ _config s' = good_config) /\
  (exists t, cycle incomplete_file = (Raise (SystemExit 1), incomplete_file, t)) /\
  cycle no_file = (Raise (SystemExit 1), no_file, not_found_trace config_path).
Proof.
  pose proof (config_is_loaded_and_validated_each_cycle
                Stub.send Stub.path_exists Stub.read_json true strip) as (H1 & H2 & H3).
  split; [ | split ].
  - destruct (H1 in_sync in_sync good_config _ eq_refl) as (_ & _ & r & s' & t' & H & Hc).
    exists r, s'. eexists. split; [ exact H | exact Hc ].
  - destruct (H2 incomplete_file
                 [("zone", JStr "example.com"); ("dnsrecord", JStr "home.example.com")]
                 "cloudflare_auth_key" eq_refl eq_refl)
      as (t & _ & H & _).
    + simpl. auto.
    + reflexivity.
    + exists t. exact H.
  - apply (proj2 (H3 no_file eq_refl)).
Defined.

End Examples.

(** ** Two cycles in a row *)

Module TwoCycles.

Import Stub.

Local Abbreviation cycle :=
  (check_and_update_dns Stub.send Stub.path_exists Stub.read_json true strip).

(** The cycle on the stub world, for any function in the place of
    [str.strip]. *)
Local Abbreviation run f :=
  (check_and_update_dns Stub.send Stub.path_exists Stub.read_json true f).

Lemma stub_configured body pub c :
  configured Stub.path_exists Stub.read_json (at_ body pub c) good_config
             (JStr "example.com") name (JStr "me@example.com") (JStr "k3y")
             [PathExists config_path; FileOpen config_path;
              Log DEBUG [Lit "Configuration loaded successfully from ";
                         Val (JStr config_path)]].
Proof. unfold configured. repeat split; reflexivity. Qed.

Lemma stub_external_ip (f : string -> string) body pub c :
  get_external_ip Stub.send true f (at_ body pub c) =
  (Ok (f body), at_ body pub c,
   [Log DEBUG [Lit "Fetching external IP address from checkip.amazonaws.com"];
    Http checkip_request;
    Log DEBUG [Lit "External IP retrieved: "; Val (JStr (f body))]]).
Proof. reflexivity. Qed.

(** The resolver answers with what the provider holds. *)
Lemma stub_lookup body pub c :
  exists t,
    get_cloudflare_dns_ip Stub.send true name (at_ body pub c) = (Ok pub, at_ body pub c, t).
Proof. destruct pub; eexists; reflexivity. Qed.

Lemma stub_in_sync_cycle (f : string -> string) body c :
  f body <> EmptyString ->
  exists t,
    run f (at_ body (JStr (f body)) c) =
    (Ok tt, at_ body (JStr (f body)) good_config, t) /\
    filter is_update_call t = [] /\
    filter is_provider_call t = [].
Proof.
  intros Hip.
  destruct (stub_lookup body (JStr (f body)) good_config) as (t2 & Hcf).
  destruct (in_sync_cycle_run
              Stub.send Stub.path_exists Stub.read_json true f
              _ _ _ _ _ _ _ _ _ _ _ _ _
              (stub_configured body (JStr (f body)) c)
              (stub_external_ip f body (JStr (f body)) good_config) Hcf)
    as (t & Hrun & Hquiet).
  - simpl. destruct (String.eqb (f body) EmptyString) eqn:E; [ | reflexivity ].
    apply String.eqb_eq in E. contradiction.
  - simpl. apply String.eqb_refl.
  - eexists. split; [ exact Hrun | ].
    pose proof (http_only_log is_update_call SUCCESS) as Hl1.
    pose proof (http_only_log is_provider_call SUCCESS) as Hl2.
    split; rewrite filter_app.
    + rewrite (Hquiet _ http_only_update eq_refl eq_refl). reflexivity.
    + rewrite (Hquiet _ http_only_provider eq_refl eq_refl). reflexivity.
Qed.

(** C8 (as amended).  On the stub, whose resolver reflects what the
    provider stores, two cycles in a row with the same external IP, which
    is what [str.strip] (any function [f] in its place) makes of the reply
    of the IP service and is not the empty string: after the first cycle
    the published IP is the external IP, and the second sends no update
    request, indeed no provider request at all. *)
Theorem second_cycle_is_a_no_op :
  forall (f : string -> string) (body : string) (pub c0 : json),
    f body <> EmptyString ->
    exists s1 t1 s2 t2,
      run f (at_ body pub c0) = (Ok tt, s1, t1) /\
      published (world s1) = JStr (f body) /\
      run f s1 = (Ok tt, s2, t2) /\
      filter is_update_call t2 = [] /\
      filter is_provider_call t2 = [].
Proof.
  intros f body pub c0 Hip.
  destruct (truthy pub && py_eq_str pub (f body)) eqn:Hsync.
  - apply andb_prop in Hsync. destruct Hsync as [_ Heq].
    destruct pub; try discriminate. simpl in Heq. apply String.eqb_eq in Heq. subst s.
    destruct (stub_in_sync_cycle f body c0 Hip) as (t1 & Hrun1 & _).
    destruct (stub_in_sync_cycle f body good_config Hip) as (t2 & Hrun2 & Hu & Hp).
    exists (at_ body (JStr (f body)) good_config), t1,
           (at_ body (JStr (f body)) good_config), t2.
    repeat split; assumption.
  - destruct (stub_lookup body pub good_config) as (t2' & Hcf).
    destruct (divergent_cycle_run
                Stub.send Stub.path_exists Stub.read_json true f
                (at_ body pub c0) _ _ _ _
                (at_ body (JStr (f body)) good_config)
                good_config (JStr "example.com") name (JStr "me@example.com")
                (JStr "k3y") (JStr "z1") (JStr "r1") pub
                (JObj [("success", JBool true); ("errors", JArr []);
                       ("result", update_payload name (f body))])
                _ _ _ _ _ _ (f body)
                (stub_configured body pub c0)
                (stub_external_ip f body pub good_config) Hcf Hsync
                eq_refl eq_refl eq_refl)
      as (t1 & Hrun1 & _).
    destruct (stub_in_sync_cycle f body good_config Hip) as (t2 & Hrun2 & Hu & Hp).
    exists (at_ body (JStr (f body)) good_config), t1,
           (at_ body (JStr (f body)) good_config), t2.
    repeat split; assumption.
Qed.

(** Scenario: first the record holds "1.2.3.4" and the machine is at
    "5.6.7.8"; the second cycle finds the record up to date. *)
Lemma second_cycle_witness :
  exists s1 t1 s2 t2,
    cycle divergent = (Ok tt, s1, t1) /\
    published (world s1) = JStr "5.6.7.8" /\
    cycle s1 = (Ok tt, s2, t2) /\
    filter is_update_call t2 = [] /\
    filter is_provider_call t2 = [].
Proof.
  apply (second_cycle_is_a_no_op strip "5.6.7.8" (JStr "1.2.3.4") JNull).
  vm_compute. discriminate.
Defined.

(** C8, as stated, fails for an empty external IP: the first cycle writes
    the empty string, the resolver then publishes it, it equals the
    unchanged external IP, and yet the second cycle sends an update. *)
Lemma second_cycle_updates_again_when_ip_is_empty :
  fst (fst (cycle blank_ip)) = Ok tt /\
  published (world (snd (fst (cycle blank_ip)))) = JStr EmptyString /\
  fst (fst (get_external_ip Stub.send true strip (snd (fst (cycle blank_ip))))) = Ok EmptyString /\
  fst (fst (get_cloudflare_dns_ip Stub.send true name (snd (fst (cycle blank_ip)))))
  = Ok (JStr EmptyString) /\
  fst (fst (cycle (snd (fst (cycle blank_ip))))) = Ok tt /\
  filter is_update_call (snd (cycle (snd (fst (cycle blank_ip))))) =
  [Http (update_request (JStr "z1") (JStr "r1") name EmptyString
                        (JStr "me@example.com") (JStr "k3y"))].
Proof. repeat split; reflexivity. Qed.

End TwoCycles.

(** ** The further properties at work on the stub world *)

Module Coverage.

Import Stub.

Local Abbreviation cycle :=
  (check_and_update_dns Stub.send Stub.path_exists Stub.read_json true strip).

Local Abbreviation load :=
  (load_config Stub.path_exists Stub.read_json config_path).

(** The IP service answers, and the IP service is unreachable. *)
Lemma get_external_ip_witness :
  (exists t, get_external_ip Stub.send true strip divergent = (Ok "5.6.7.8", divergent, t)) /\
  (exists t, get_external_ip Stub.send true strip offline
             = (Raise RequestException, offline, t)).
Proof.
  split; eexists.
  - exact (proj1 (get_external_ip_contract Stub.send true strip divergent _ _ eq_refl)
                 {| status_ok := true; text := "5.6.7.8"; body := None |}
                 eq_refl eq_refl).
  - exact (proj2 (get_external_ip_contract Stub.send true strip offline _ _ eq_refl)
                 (or_introl eq_refl)).
Defined.

(** No file: the exit follows exactly one ERROR line. *)
Lemma load_config_failures_witness :
  load no_file = (Raise (SystemExit 1), no_file, not_found_trace config_path) /\
  List.length (filter is_error_log (not_found_trace config_path)) = 1%nat.
Proof.
  split; [ reflexivity | ].
  destruct (load_config_failures Stub.path_exists Stub.read_json config_path
                                 no_file no_file (SystemExit 1)
                                 (not_found_trace config_path) eq_refl)
    as (_ & [(_ & H & _) | [(H & _) | [(_ & _ & H) | (H & _)]]]).
  - exact H.
  - discriminate H.
  - cbv in H. discriminate H.
  - discriminate H.
Defined.

Lemma scalar_config_witness :
  load scalar_file
  = (Raise TypeError, scalar_file, [PathExists config_path; FileOpen config_path]) /\
  cycle scalar_file
  = (Raise TypeError, scalar_file, [PathExists config_path; FileOpen config_path]).
Proof.
  destruct (scalar_config_is_a_type_error
              Stub.send Stub.path_exists Stub.read_json true strip scalar_file (JInt 7)
              eq_refl eq_refl eq_refl) as (H1 & H2 & _).
  split; assumption.
Defined.

Lemma object_config_validation_witness :
  load incomplete_file =
  (Raise (SystemExit 1), incomplete_file,
   [PathExists config_path; FileOpen config_path;
    Log ERROR [Lit "Missing required fields in config: ";
               Joined ", " ["cloudflare_auth_email"; "cloudflare_auth_key"]]]).
Proof.
  apply (proj2 (proj2 (object_config_validation
                         Stub.path_exists Stub.read_json config_path incomplete_file
                         [("zone", JStr "example.com");
                          ("dnsrecord", JStr "home.example.com")]
                         eq_refl eq_refl))).
  discriminate.
Defined.

Lemma cycle_request_sequence_witness :
  filter is_http (snd (cycle no_zone)) =
  [Http checkip_request;
   Http (dns_query name);
   Http (zones_request (JStr "example.com") (JStr "me@example.com") (JStr "k3y"))] /\
  filter is_http (snd (cycle divergent)) =
  [Http checkip_request;
   Http (dns_query name);
   Http (zones_request (JStr "example.com") (JStr "me@example.com") (JStr "k3y"));
   Http (records_request (JStr "z1") name (JStr "me@example.com") (JStr "k3y"));
   Http (update_request (JStr "z1") (JStr "r1") name "5.6.7.8"
                        (JStr "me@example.com") (JStr "k3y"))] /\
  filter is_http (snd (cycle no_file)) = [].
Proof.
  split; [ | split ].
  - refine (proj1 (proj1 (cycle_request_sequence
                            Stub.send Stub.path_exists Stub.read_json true strip no_zone)
                         good_config (JStr "example.com") name
                         (JStr "me@example.com") (JStr "k3y") _ _)).
    unfold configured. repeat split; reflexivity.
  - refine (proj1 (proj1 (cycle_request_sequence
                            Stub.send Stub.path_exists Stub.read_json true strip divergent)
                         good_config (JStr "example.com") name
                         (JStr "me@example.com") (JStr "k3y") _ _)).
    unfold configured. repeat split; reflexivity.
  - eapply (proj2 (cycle_request_sequence
                     Stub.send Stub.path_exists Stub.read_json true strip no_file)).
    reflexivity.
Defined.

(** The record listing returns zero results. *)
Lemma record_failure_witness :
  exists t e,
    cycle no_record = (Ok tt, with_config no_record good_config, t ++ [absorbed e]) /\
    filter is_update_call (t ++ [absorbed e]) = [] /\
    filter is_success_log (t ++ [absorbed e]) = [].
Proof.
  destruct (record_failure_stops_the_sequence
              Stub.send Stub.path_exists Stub.read_json true strip no_record
              (with_config no_record good_config) (with_config no_record good_config)
              (with_config no_record good_config) (with_config no_record good_config)
              good_config (JStr "example.com") name
              (JStr "me@example.com") (JStr "k3y") (JStr "z1") (JStr "1.2.3.4")
              [PathExists config_path; FileOpen config_path;
               Log DEBUG [Lit "Configuration loaded successfully from ";
                          Val (JStr config_path)]]
              [Log DEBUG [Lit "Fetching external IP address from checkip.amazonaws.com"];
               Http checkip_request;
               Log DEBUG [Lit "External IP retrieved: "; Val (JStr "5.6.7.8")]]
              [Log DEBUG [Lit "Querying Cloudflare DNS for "; Val name];
               Http (dns_query name);
               Log DEBUG [Lit "Cloudflare DNS returned: "; Val (JStr "1.2.3.4")]]
              [Log DEBUG [Lit "Fetching zone ID for "; Val (JStr "example.com")];
               Http (zones_request (JStr "example.com") (JStr "me@example.com")
                                   (JStr "k3y"));
               Log DEBUG [Lit "Zone ID for "; Val (JStr "example.com"); Lit ": ";
                          Val (JStr "z1")]]
              [Log DEBUG [Lit "Fetching DNS record ID for "; Val name];
               Http (records_request (JStr "z1") name (JStr "me@example.com")
                                     (JStr "k3y"));
               Log ERROR [Lit "DNS record '"; Val name; Lit "' not found"]]
              "5.6.7.8"
              (Exception [Lit "DNS record '"; Val name; Lit "' not found"]))
    as (t & H).
  - unfold configured. repeat split; reflexivity.
  - reflexivity.
  - reflexivity.
  - reflexivity.
  - reflexivity.
  - reflexivity.
  - exists t. eexists. exact H.
Defined.

(** The provider refuses the write. *)
Lemma update_failure_witness :
  exists t e,
    cycle denied = (Ok tt, with_config denied good_config, t ++ [absorbed e]) /\
    filter is_success_log (t ++ [absorbed e]) = [] /\
    filter is_update_call (t ++ [absorbed e]) =
    [Http (update_request (JStr "z1") (JStr "r1") name "5.6.7.8"
                          (JStr "me@example.com") (JStr "k3y"))].
Proof.
  destruct (update_failure_is_not_reported_as_success
              Stub.send Stub.path_exists Stub.read_json true strip denied
              (with_config denied good_config) (with_config denied good_config)
              (with_config denied good_config) (with_config denied good_config)
              (with_config denied good_config)
              good_config (JStr "example.com") name
              (JStr "me@example.com") (JStr "k3y") (JStr "z1") (JStr "r1")
              (JStr "1.2.3.4")
              [PathExists config_path; FileOpen config_path;
               Log DEBUG [Lit "Configuration loaded successfully from ";
                          Val (JStr config_path)]]
              [Log DEBUG [Lit "Fetching external IP address from checkip.amazonaws.com"];
               Http checkip_request;
               Log DEBUG [Lit "External IP retrieved: "; Val (JStr "5.6.7.8")]]
              [Log DEBUG [Lit "Querying Cloudflare DNS for "; Val name];
               Http (dns_query name);
               Log DEBUG [Lit "Cloudflare DNS returned: "; Val (JStr "1.2.3.4")]]
              [Log DEBUG [Lit "Fetching zone ID for "; Val (JStr "example.com")];
               Http (zones_request (JStr "example.com") (JStr "me@example.com")
                                   (JStr "k3y"));
               Log DEBUG [Lit "Zone ID for "; Val (JStr "example.com"); Lit ": ";
                          Val (JStr "z1")]]
              [Log DEBUG [Lit "Fetching DNS record ID for "; Val name];
               Http (records_request (JStr "z1") name (JStr "me@example.com")
                                     (JStr "k3y"));
               Log DEBUG [Lit "DNS record ID for "; Val name; Lit ": ";
                          Val (JStr "r1")]]
              [Log DEBUG [Lit "Updating DNS record "; Val name; Lit " to ";
                          Val (JStr "5.6.7.8")];
               Http (update_request (JStr "z1") (JStr "r1") name "5.6.7.8"
                                    (JStr "me@example.com") (JStr "k3y"));
               Log ERROR [Lit "Failed to update DNS record: ";
                          Val (JArr [JStr "denied"])]]
              "5.6.7.8"
              (Exception [Lit "Failed to update DNS record: ";
                          Val (JArr [JStr "denied"])]))
    as (t & H).
  - unfold configured. repeat split; reflexivity.
  - reflexivity.
  - reflexivity.
  - reflexivity.
  - reflexivity.
  - reflexivity.
  - reflexivity.
  - exists t. eexists. exact H.
Defined.


Lemma load_config_succeeds_witness :
  load in_sync =
  (Ok good_config, in_sync,
   [PathExists config_path; FileOpen config_path;
    Log DEBUG [Lit "Configuration loaded successfully from "; Val (JStr config_path)]]).
Proof.
  apply (proj2 (load_config_succeeds_iff
                  Stub.path_exists Stub.read_json config_path in_sync in_sync
                  good_config _)).
  repeat split; reflexivity.
Defined.

(** The provider answers every call with an error envelope. *)
Lemma provider_error_envelope_witness :
  exists x,
    x = Exception [Lit "Cloudflare API error: "; Val (JArr [JStr "Invalid request headers"])] /\
    fst (fst (get_zone_id (always (Response api_error)) true
                          (JStr "example.com") (JStr "me@example.com") (JStr "k3y")
                          in_sync)) = Raise x /\
    fst (fst (get_dns_record_id (always (Response api_error)) true
                                (JStr "z1") name (JStr "me@example.com") (JStr "k3y")
                                in_sync)) = Raise x.
Proof.
  destruct (provider_error_envelope
              (always (Response api_error)) true in_sync api_error
              (world in_sync)
              [("success", JBool false);
               ("errors", JArr [JStr "Invalid request headers"])]
              (JBool false) (JArr [JStr "Invalid request headers"])
              eq_refl eq_refl eq_refl eq_refl eq_refl) as (Hz & Hr & _).
  eexists. split; [ reflexivity | split ].
  - rewrite (Hz (JStr "example.com") (JStr "me@example.com") (JStr "k3y") eq_refl).
    reflexivity.
  - rewrite (Hr (JStr "z1") name (JStr "me@example.com") (JStr "k3y") eq_refl).
    reflexivity.
Defined.

Lemma empty_result_witness :
  fst (fst (get_zone_id (always (Response empty_result)) true
                        (JStr "example.com") (JStr "me@example.com") (JStr "k3y")
                        in_sync))
  = Raise (Exception [Lit "Zone '"; Val (JStr "example.com"); Lit "' not found"]) /\
  fst (fst (get_dns_record_id (always (Response empty_result)) true
                              (JStr "z1") name (JStr "me@example.com") (JStr "k3y")
                              in_sync))
  = Raise (Exception [Lit "DNS record '"; Val name; Lit "' not found"]).
Proof.
  destruct (empty_result_is_not_found
              (always (Response empty_result)) true in_sync empty_result
              (world in_sync)
              [("success", JBool true); ("errors", JArr []); ("result", JArr [])]
              (JBool true) (JArr [])
              eq_refl eq_refl eq_refl eq_refl eq_refl eq_refl) as (Hz & Hr).
  split.
  - rewrite (Hz (JStr "example.com") (JStr "me@example.com") (JStr "k3y") eq_refl).
    reflexivity.
  - rewrite (Hr (JStr "z1") name (JStr "me@example.com") (JStr "k3y") eq_refl).
    reflexivity.
Defined.

(** A success envelope without a [result] field is returned as it is. *)
Lemma update_returns_the_reply_witness :
  fst (fst (update_dns_record (always (Response updated)) true
                              (JStr "z1") (JStr "r1") name "5.6.7.8"
                              (JStr "me@example.com") (JStr "k3y") in_sync))
  = Ok (JObj [("success", JBool true); ("messages", JArr [])]).
Proof.
  rewrite (update_returns_the_reply
             (always (Response updated)) true in_sync updated (world in_sync)
             [("success", JBool true); ("messages", JArr [])] (JBool true)
             (JStr "z1") (JStr "r1") name "5.6.7.8" (JStr "me@example.com") (JStr "k3y")
             eq_refl eq_refl eq_refl eq_refl eq_refl).
  reflexivity.
Defined.

Lemma unreadable_reply_witness :
  fst (fst (get_cloudflare_dns_ip (always (Response list_reply)) true name in_sync))
  = Raise AttributeError /\
  fst (fst (get_cloudflare_dns_ip (always (Response answer_without_data)) true name
                                  in_sync))
  = Raise KeyError.
Proof.
  split.
  - rewrite (proj1 (get_cloudflare_dns_ip_unreadable_reply
                      (always (Response list_reply)) true name in_sync list_reply
                      (world in_sync) eq_refl eq_refl)
                   (JArr []) eq_refl eq_refl).
    reflexivity.
  - destruct (proj2 (get_cloudflare_dns_ip_unreadable_reply
                       (always (Response answer_without_data)) true name in_sync
                       answer_without_data (world in_sync) eq_refl eq_refl)
                    [("Status", JInt 0);
                     ("Answer", JArr [JObj [("name", JStr "home.example.com")]])]
                    (JObj [("name", JStr "home.example.com")]) [] KeyError
                    eq_refl eq_refl eq_refl) as (_ & H).
    rewrite H. reflexivity.
Defined.

(** The resolver answers with a JSON list: the cycle stops there. *)
Lemma lookup_failure_witness :
  exists t,
    check_and_update_dns (send_with_resolver_reply (Response list_reply))
                         Stub.path_exists Stub.read_json true strip divergent
    = (Ok tt, with_config divergent good_config, t ++ [absorbed AttributeError]) /\
    filter is_provider_call (t ++ [absorbed AttributeError]) = [].
Proof.
  eapply (lookup_failure_aborts_the_cycle
            (send_with_resolver_reply (Response list_reply))
            Stub.path_exists Stub.read_json true strip divergent
            (with_config divergent good_config) (with_config divergent good_config)
            good_config (JStr "example.com") name
            (JStr "me@example.com") (JStr "k3y")
            [PathExists config_path; FileOpen config_path;
             Log DEBUG [Lit "Configuration loaded successfully from ";
                        Val (JStr config_path)]]
            [Log DEBUG [Lit "Fetching external IP address from checkip.amazonaws.com"];
             Http checkip_request;
             Log DEBUG [Lit "External IP retrieved: "; Val (JStr "5.6.7.8")]]
            [Log DEBUG [Lit "Querying Cloudflare DNS for "; Val name];
             Http (dns_query name)]
            "5.6.7.8" AttributeError).
  - unfold configured. repeat split; reflexivity.
  - reflexivity.
  - reflexivity.
Defined.


Lemma non_object_config_witness :
  cycle text_file =
  (Raise TypeError, with_config text_file text_config,
   [PathExists config_path; FileOpen config_path;
    Log DEBUG [Lit "Configuration loaded successfully from "; Val (JStr config_path)]]).
Proof.
  apply (proj1 (non_object_config_is_a_type_error
                  Stub.send Stub.path_exists Stub.read_json true strip text_file text_file
                  text_config _ eq_refl eq_refl)).
Defined.

End Coverage.
